(** * Telecom 10-K Analyzer: a shallow embedding of [streamlit_app.py]

    The script is a thin wrapper around two external collaborators: the
    vector-index library (LlamaIndex) and the page framework (Streamlit).
    The embedding keeps the script's own control flow (guards, try/except
    blocks, the order of calls and of rendered elements) and takes the
    collaborators as an interface, [Library], whose calls may return or
    raise and may change the outside world. *)

From Stdlib Require Import String Ascii List Bool ZArith DecimalString.
From stdpp Require Import base option list strings gmap.

Open Scope string_scope.
Open Scope list_scope.

(** ** Python values *)

(** The values the script handles without looking inside them: the
    credential found in a store, the [response] attribute of an answer
    object, the value handed to [st.write]. *)
Inductive pyval :=
| PyNone
| PyBool (b : bool)
| PyInt (n : Z)
| PyStr (s : string).

(** Python truthiness, as used by [if not x]. *)
Definition truthy (v : pyval) : bool :=
  match v with
  | PyNone => false
  | PyBool b => b
  | PyInt n => negb (Z.eqb n 0)
  | PyStr s => negb (String.eqb s "")
  end.

(** [os.environ.get(k)] yields a string or [None]. *)
Definition of_lookup (o : option string) : pyval :=
  match o with
  | Some s => PyStr s
  | None => PyNone
  end.

(** ** Exceptions

    Both handlers of the script that name a class name [Exception]
    (lines 88 and 109); the classes below all derive from it.  Signals
    that derive from [BaseException] only ([SystemExit],
    [KeyboardInterrupt]) ask the interpreter to stop and are not part of
    this model. *)
Inductive exn_class :=
| TypeError
| KeyError
| ValueError
| FileNotFoundError
| OSError
| OtherException (name : string).

(** A raised exception: its class and [str(e)]. *)
Record exn := Exn { exn_type : exn_class; exn_str : string }.

Inductive outcome (A : Type) :=
| Returns (a : A)
| Raises (e : exn).
Arguments Returns {A} a.
Arguments Raises {A} e.

(** ** The answer object of the query interface *)

(** What the script observes of the object returned by
    [query_engine.query]: whether it has a [response] attribute (and its
    value), and its [str()] form. *)
Record response_obj := ResponseObj {
  attr_response : option pyval;
  obj_str : string
}.

(** ** External collaborators *)

Class Library := {
  World : Type;
  Index : Type;
  QueryEngine : Type;
  StorageContext : Type;
  (** [os.path.exists]: never raises on a string path. *)
  os_path_exists : string -> World -> bool;
  os_listdir : string -> World -> outcome (list string) * World;
  StorageContext_from_defaults : string -> World -> outcome StorageContext * World;
  load_index_from_storage : StorageContext -> World -> outcome Index * World;
  as_query_engine : Index -> World -> outcome QueryEngine * World;
  query : QueryEngine -> string -> World -> outcome response_obj * World;
  (** [st.image]: reads the image file before drawing it, raises when the
      file is missing. *)
  st_image : string -> World -> outcome unit * World
}.

Section Script.
Context {L : Library}.

(** The index handle as the script holds it: the library's index object or
    [None].  Index objects of the library define neither [__bool__] nor
    [__len__], so every one of them is truthy and [not index] holds exactly
    for [None]. *)
Definition handle : Type := option Index.

Definition truthy_handle (index : handle) : bool :=
  match index with
  | Some _ => true
  | None => false
  end.

(** Calls made to the collaborators, in the order they are made. *)
Inductive call :=
| Call_exists (path : string)
| Call_listdir (path : string)
| Call_from_defaults (persist_dir : string)
| Call_load_index_from_storage (sc : StorageContext)
| Call_as_query_engine (ix : Index)
| Call_query (qe : QueryEngine) (query_text : string)
| Call_image (path : string).

(** Fixed presentation blocks (page configuration, style sheet, headings
    and prose of the page); their text carries no behaviour. *)
Inductive static_block :=
| PageConfig
| StyleSheet
| Logo
| LogoFallback
| MainHeader
| Subtitle
| AboutHeader
| PurposeHeader
| PurposeText
| HowItWorksHeader
| HowItWorksText
| DataSourcesHeader
| DataSourcesText
| Footer.

(** Elements rendered into the page during one run of the script. *)
Inductive element :=
| StStatic (b : static_block)
| StError (msg : string)
| StWarning (msg : string)
| StWrite (v : pyval)
| StWriteList (names : list string)
| StTextArea (label : string)
| StButton (label : string).

(** ** State of a run *)

Record state := State {
  (* the root-level entries of the secrets file, in the order of the file;
     [None]: no secrets file.  Values are the scalars [pyval] has; floating
     point values, tables, arrays and dates are left out. *)
  secrets : option (list (string * pyval));
  secrets_parsed : bool;                  (* [st.secrets] has read the file *)
  environ : gmap string string;           (* [os.environ] *)
  text_area_value : string;               (* what the user typed *)
  button_clicked : bool;                  (* whether the submit action fired *)
  ui : list element;                      (* rendered so far *)
  resource_cache : option handle;         (* slot of [st.cache_resource] *)
  trace : list call;                      (* calls to collaborators so far *)
  world : World
}.

Definition with_environ (env : gmap string string) (s : state) : state :=
  State (secrets s) (secrets_parsed s) env (text_area_value s) (button_clicked s)
        (ui s) (resource_cache s) (trace s) (world s).

Definition with_ui (els : list element) (s : state) : state :=
  State (secrets s) (secrets_parsed s) (environ s) (text_area_value s) (button_clicked s)
        els (resource_cache s) (trace s) (world s).

Definition with_cache (c : option handle) (s : state) : state :=
  State (secrets s) (secrets_parsed s) (environ s) (text_area_value s) (button_clicked s)
        (ui s) c (trace s) (world s).

Definition with_call (c : call) (w : World) (s : state) : state :=
  State (secrets s) (secrets_parsed s) (environ s) (text_area_value s) (button_clicked s)
        (ui s) (resource_cache s) (trace s ++ [c]) w.

Definition with_parsed (s : state) : state :=
  State (secrets s) true (environ s) (text_area_value s) (button_clicked s)
        (ui s) (resource_cache s) (trace s) (world s).

(** ** The monad of the script: state and exceptions *)

Definition M (A : Type) : Type := state -> outcome A * state.

#[export] Instance M_ret : MRet M := fun A a s => (Returns a, s).

#[export] Instance M_bind : MBind M := fun A B f m s =>
  match m s with
  | (Returns a, s') => f a s'
  | (Raises e, s') => (Raises e, s')
  end.

(** [try: body / except Exception as e: handler e] (and, every modelled
    class deriving from [Exception], the bare [except:] too). *)
Definition try_except {A} (body : M A) (handler : exn -> M A) : M A :=
  fun s =>
    match body s with
    | (Returns a, s') => (Returns a, s')
    | (Raises e, s') => handler e s'
    end.

(** A call to a collaborator: recorded, and run against the world. *)
Definition extern {A} (c : call) (f : World -> outcome A * World) : M A :=
  fun s => let (r, w) := f (world s) in (r, with_call c w s).

Definition render (e : element) : M unit :=
  fun s => (Returns tt, with_ui (ui s ++ [e]) s).

Definition st_error (msg : string) : M unit := render (StError msg).
Definition st_warning (msg : string) : M unit := render (StWarning msg).
Definition st_write (v : pyval) : M unit := render (StWrite v).
Definition st_write_list (names : list string) : M unit := render (StWriteList names).
Definition st_static (b : static_block) : M unit := render (StStatic b).

(** [with st.spinner(text): body]: a temporary indicator around [body]. *)
Definition st_spinner {A} (text : string) (body : M A) : M A := body.

Definition st_text_area (label : string) : M string :=
  fun s => (Returns (text_area_value s), with_ui (ui s ++ [StTextArea label]) s).

Definition st_button (label : string) : M bool :=
  fun s => (Returns (button_clicked s), with_ui (ui s ++ [StButton label]) s).

Definition raise {A} (e : exn) : M A := fun s => (Raises e, s).

Fixpoint has_char (c : ascii) (text : string) : bool :=
  match text with
  | EmptyString => false
  | String c' rest => Ascii.eqb c c' || has_char c rest
  end.

Definition has_nul (text : string) : bool := has_char zero text.

(** [os.environ[k] = v].  Only strings can be stored ([TypeError]); a null
    byte in the name or in the value, an empty name and a name with [=]
    in it are refused by [putenv] ([ValueError]). *)
Definition environ_set (k : string) (v : pyval) : M unit :=
  fun s =>
    match v with
    | PyStr x =>
        if has_nul k || has_nul x then
          (Raises (Exn ValueError "embedded null byte"), s)
        else if String.eqb k "" || has_char "=" k then
          (Raises (Exn ValueError "illegal environment variable name"), s)
        else (Returns tt, with_environ (<[k := x]> (environ s)) s)
    | PyNone => (Raises (Exn TypeError "str expected, not NoneType"), s)
    | PyBool _ => (Raises (Exn TypeError "str expected, not bool"), s)
    | PyInt _ => (Raises (Exn TypeError "str expected, not int"), s)
    end.

Definition environ_get (k : string) : M pyval :=
  fun s => (Returns (of_lookup (environ s !! k)), s).

(** [str(n)] for an integer. *)
Definition str_of_int (n : Z) : string := NilZero.string_of_int (Z.to_int n).

(** [Secrets._maybe_set_environment_variable]: a secret that is a string
    or an integer is copied into [os.environ] (a boolean is not: its type
    is [bool]). *)
Definition maybe_set_environment_variable (k : string) (v : pyval) : M unit :=
  match v with
  | PyStr x => environ_set k (PyStr x)
  | PyInt n => environ_set k (PyStr (str_of_int n))
  | PyBool _ | PyNone => mret tt
  end.

(** The copy of the root-level entries, in the order of the file; it
    stops at the first entry [os.environ] refuses. *)
Fixpoint copy_secrets (entries : list (string * pyval)) : M unit :=
  match entries with
  | [] => mret tt
  | (k, v) :: rest => maybe_set_environment_variable k v;; copy_secrets rest
  end.

Fixpoint lookup_secret (k : string) (entries : list (string * pyval)) : option pyval :=
  match entries with
  | [] => None
  | (k', v) :: rest => if String.eqb k k' then Some v else lookup_secret k rest
  end.

(** [Secrets._parse]: the first access reads the file, copies its
    root-level entries into [os.environ] and keeps the result; later
    accesses use what was kept.  A copy that is refused leaves nothing
    kept, so that the next access reads the file again. *)
Definition parse_secrets : M (list (string * pyval)) :=
  fun s =>
    match secrets s with
    | None => (Raises (Exn FileNotFoundError "No secrets files found."), s)
    | Some entries =>
        if secrets_parsed s then (Returns entries, s)
        else
          match copy_secrets entries s with
          | (Returns _, s') => (Returns entries, with_parsed s')
          | (Raises e, s') => (Raises e, s')
          end
    end.

(** [st.secrets[k]]: raises without a secrets file, when the copy into
    [os.environ] is refused, and without the key. *)
Definition secrets_getitem (k : string) : M pyval :=
  entries ← parse_secrets;
  match lookup_secret k entries with
  | Some v => mret v
  | None => raise (Exn KeyError k)
  end.

(** ** Lines 94-110: the query dispatcher *)

Definition query_index (index : handle) (query_text : string) : M pyval :=
  match index with
  | None => (* not index *)
      mret (PyStr "Error: Index not loaded properly.")
  | Some ix =>
      try_except
        (query_engine ← extern (Call_as_query_engine ix) (as_query_engine ix);
         response_obj ← extern (Call_query query_engine query_text)
                               (query query_engine query_text);
         (* only the text of the response *)
         let clean_response :=
           match attr_response response_obj with
           | Some v => v
           | None => PyStr (obj_str response_obj)
           end in
         mret clean_response)
        (fun e => mret (PyStr ("Error processing query: " +:+ exn_str e)))
  end.

(** ** Lines 69-90: the index loader *)

Definition index_dir : string := "index_10k_storage".

(** The body of [load_vector_index], lines 72-90. *)
Definition load_vector_index_body : M handle :=
  try_except
    (present ← extern (Call_exists index_dir)
                      (fun w => (Returns (os_path_exists index_dir w), w));
     if negb present then
       st_error "The index_10k_storage directory doesn't exist. Please make sure it's correctly uploaded.";;
       mret None
     else
       st_write (PyStr "Index directory contents:");;
       names ← extern (Call_listdir index_dir) (os_listdir index_dir);
       st_write_list names;;
       storage_context ← extern (Call_from_defaults index_dir)
                                (StorageContext_from_defaults index_dir);
       index ← extern (Call_load_index_from_storage storage_context)
                      (load_index_from_storage storage_context);
       mret (Some index))
    (fun e => st_error ("Error loading index: " +:+ exn_str e);; mret None).

(** Modelled from the spec: the decorator [st.cache_resource] of line 70
    belongs to the page framework and is not part of the script.  The spec
    describes it as memoization for the lifetime of the process: the first
    invocation that returns stores its result, every later invocation
    yields the stored result without executing the body. *)
Definition cache_resource (body : M handle) : M handle :=
  fun s =>
    match resource_cache s with
    | Some cached => (Returns cached, s)
    | None =>
        match body s with
        | (Returns v, s') => (Returns v, with_cache (Some v) s')
        | (Raises e, s') => (Raises e, s')
        end
    end.

(** The name [load_vector_index] as the script binds it (lines 70-71). *)
Definition load_vector_index : M handle := cache_resource load_vector_index_body.

(** ** Lines 58-67: the credential *)

Definition credentials : M unit :=
  OPENAI_API_KEY ←
    try_except
      (secrets_getitem "OPENAI_API_KEY")
      (fun _ =>
         OPENAI_API_KEY ← environ_get "OPENAI_API_KEY";
         (if negb (truthy OPENAI_API_KEY) then
            st_error "OpenAI API key not found. Please set it in the Streamlit secrets or as an environment variable."
          else mret tt);;
         mret OPENAI_API_KEY);
  environ_set "OPENAI_API_KEY" OPENAI_API_KEY.

(** ** Lines 113-185: the page *)

(** Lines 115-124. *)
Definition render_header : M unit :=
  try_except
    (extern (Call_image "logo.png") (st_image "logo.png");;
     st_static Logo)
    (fun _ => st_static LogoFallback);;
  st_static MainHeader;;
  st_static Subtitle.

(** Lines 149-159. *)
Definition process_submit (index : handle) (query : string) (submit_button : bool) : M unit :=
  if submit_button then
    if negb (truthy (PyStr query)) then
      st_error "Please enter a query."
    else
      st_spinner "Processing your query..."
        (response ← query_index index query;
         st_write (PyStr "### Response");;
         st_write response)
  else mret tt.

(** Lines 161-185. *)
Definition render_about : M unit :=
  st_static AboutHeader;;
  st_static PurposeHeader;;
  st_static PurposeText;;
  st_static HowItWorksHeader;;
  st_static HowItWorksText;;
  st_static DataSourcesHeader;;
  st_static DataSourcesText;;
  st_static Footer.

Definition main : M unit :=
  render_header;;
  index ← st_spinner "Loading index..." load_vector_index;
  (if negb (truthy_handle index) then
     st_warning "⚠️ The index could not be loaded. Please check your setup."
   else mret tt);;
  st_write (PyStr "### Ask your question");;
  query ← st_text_area "Enter your question about telecom 10-K reports:";
  submit_button ← st_button "Submit Query";
  process_submit index query submit_button;;
  render_about.

(** ** The whole script, top to bottom *)

Definition script : M unit :=
  st_static PageConfig;;
  st_static StyleSheet;;
  environ_set "TIKTOKEN_CACHE_DIR" (PyStr "/tmp/tiktoken_cache");;
  environ_set "TRANSFORMERS_CACHE" (PyStr "/tmp/transformers_cache");;
  environ_set "HF_HOME" (PyStr "/tmp/hf_home");;
  environ_set "XDG_CACHE_HOME" (PyStr "/tmp/xdg_cache");;
  credentials;;
  main.

(** ** Vocabulary of the statements *)

(** What [query_index] extracts from an answer object. *)
Definition text_of (obj : response_obj) : pyval :=
  match attr_response obj with
  | Some v => v
  | None => PyStr (obj_str obj)
  end.

(** Calls that read the index directory or build the index. *)
Definition is_load_call (c : call) : bool :=
  match c with
  | Call_exists _ | Call_listdir _ | Call_from_defaults _
  | Call_load_index_from_storage _ => true
  | _ => false
  end.

(** Calls to the query interface of a handle. *)
Definition is_query_call (c : call) : bool :=
  match c with
  | Call_as_query_engine _ | Call_query _ _ => true
  | _ => false
  end.

(** The library raises [e] while the index is loaded from the world [w]:
    the directory is there, and listing it, opening the storage context or
    building the index raises. *)
Definition raised_during_load (w : World) (e : exn) : Prop :=
  os_path_exists index_dir w = true /\
  ((exists w1, os_listdir index_dir w = (Raises e, w1)) \/
   (exists names w1 w2,
       os_listdir index_dir w = (Returns names, w1) /\
       StorageContext_from_defaults index_dir w1 = (Raises e, w2)) \/
   (exists names w1 sc w2 w3,
       os_listdir index_dir w = (Returns names, w1) /\
       StorageContext_from_defaults index_dir w1 = (Returns sc, w2) /\
       load_index_from_storage sc w2 = (Raises e, w3))).

(** The world [w] holds a valid persisted index, which loads as [ix]. *)
Definition loads_as (w : World) (ix : Index) : Prop :=
  os_path_exists index_dir w = true /\
  exists names w1 sc w2 w3,
    os_listdir index_dir w = (Returns names, w1) /\
    StorageContext_from_defaults index_dir w1 = (Returns sc, w2) /\
    load_index_from_storage sc w2 = (Returns ix, w3).

(** The state after [n] invocations of [load_vector_index] in a row. *)
Definition after_invocations (n : nat) (s : state) : state :=
  Nat.iter n (fun st => snd (load_vector_index st)) s.

Definition is_exists_call (c : call) : bool :=
  match c with Call_exists _ => true | _ => false end.

Definition is_construction_call (c : call) : bool :=
  match c with Call_load_index_from_storage _ => true | _ => false end.

Definition msg_no_directory : string :=
  "The index_10k_storage directory doesn't exist. Please make sure it's correctly uploaded.".

(** Lines 115-146 of [main]: what is drawn before the submit action is
    looked at; yields the handle, the text typed and whether the button
    was pressed. *)
Definition before_submit : M (handle * string * bool) :=
  render_header;;
  index ← st_spinner "Loading index..." load_vector_index;
  (if negb (truthy_handle index) then
     st_warning "⚠️ The index could not be loaded. Please check your setup."
   else mret tt);;
  st_write (PyStr "### Ask your question");;
  query ← st_text_area "Enter your question about telecom 10-K reports:";
  submit_button ← st_button "Submit Query";
  mret (index, query, submit_button).

Definition is_response_heading (e : element) : bool :=
  match e with
  | StWrite (PyStr text) => String.eqb text "### Response"
  | _ => false
  end.

Definition is_validation_error (e : element) : bool :=
  match e with
  | StError msg => String.eqb msg "Please enter a query."
  | _ => false
  end.

(** [str.isspace] on the characters of the ASCII range. *)
Definition isspace_char (c : ascii) : bool :=
  let n := nat_of_ascii c in
  Nat.eqb n 32 || (Nat.leb 9 n && Nat.leb n 13) || (Nat.leb 28 n && Nat.leb n 31).

Fixpoint all_space (text : string) : bool :=
  match text with
  | EmptyString => true
  | String c rest => isspace_char c && all_space rest
  end.

(** [text.isspace()]: at least one character, and whitespace only. *)
Definition py_isspace (text : string) : bool :=
  match text with
  | EmptyString => false
  | String _ _ => all_space text
  end.

(** The run hands the text typed to [query_index], as typed and with the
    handle the loader gave, and draws the answer under the response
    heading; it adds no validation message; on a loaded handle the query
    interface is called. *)
Definition dispatched (s : state) : Prop :=
  exists index s1 response s2,
    before_submit s = (Returns (index, text_area_value s, true), s1) /\
    query_index index (text_area_value s) s1 = (Returns response, s2) /\
    main s = (st_write (PyStr "### Response");; st_write response;; render_about) s2 /\
    filter is_validation_error (ui (snd (main s))) = filter is_validation_error (ui s) /\
    In (StWrite (PyStr "### Response")) (ui (snd (main s))) /\
    (forall ix, index = Some ix -> In (Call_as_query_engine ix) (trace (snd (main s)))).

Definition msg_no_key : string :=
  "OpenAI API key not found. Please set it in the Streamlit secrets or as an environment variable.".

(** The credential is in neither store. *)
Definition credential_absent (s : state) : Prop :=
  (secrets s = None \/
   exists m, secrets s = Some m /\ lookup_secret "OPENAI_API_KEY" m = None) /\
  environ s !! "OPENAI_API_KEY" = None.

Definition is_main_element (e : element) : bool :=
  match e with
  | StStatic MainHeader | StTextArea _ | StButton _ => true
  | _ => false
  end.

(** ** Vocabulary of the further statements *)

Definition is_st_error (e : element) : bool :=
  match e with StError _ => true | _ => false end.

Definition is_engine_call (c : call) : bool :=
  match c with Call_as_query_engine _ => true | _ => false end.

Definition is_query_only_call (c : call) : bool :=
  match c with Call_query _ _ => true | _ => false end.

(** The closing part of the page, lines 161-185. *)
Definition about_blocks : list element :=
  [StStatic AboutHeader; StStatic PurposeHeader; StStatic PurposeText;
   StStatic HowItWorksHeader; StStatic HowItWorksText;
   StStatic DataSourcesHeader; StStatic DataSourcesText; StStatic Footer].

Definition msg_not_loaded : string :=
  "⚠️ The index could not be loaded. Please check your setup.".

Definition label_text_area : string :=
  "Enter your question about telecom 10-K reports:".

(** The state after lines 7-56: page configuration, style sheet and the
    four cache directories. *)
Definition after_preamble (s : state) : state :=
  with_environ
    (<["XDG_CACHE_HOME" := "/tmp/xdg_cache"]>
     (<["HF_HOME" := "/tmp/hf_home"]>
      (<["TRANSFORMERS_CACHE" := "/tmp/transformers_cache"]>
       (<["TIKTOKEN_CACHE_DIR" := "/tmp/tiktoken_cache"]> (environ s)))))
    (with_ui (ui s ++ [StStatic PageConfig; StStatic StyleSheet]) s).

(** The secrets store does not give the key. *)
Definition no_secret (s : state) : Prop :=
  secrets s = None \/
  exists m, secrets s = Some m /\ lookup_secret "OPENAI_API_KEY" m = None.

(** The step from [s] to [s'] touches [os.environ] and the reading of the
    secrets file at most. *)
Definition same_session (s s' : state) : Prop :=
  secrets s' = secrets s /\
  text_area_value s' = text_area_value s /\
  button_clicked s' = button_clicked s /\
  ui s' = ui s /\ resource_cache s' = resource_cache s /\
  trace s' = trace s /\ world s' = world s.

(** Lines 59-64: what the variable [OPENAI_API_KEY] of the script is bound
    to when line 67 is reached. *)
Definition key_found : M pyval :=
  try_except
    (secrets_getitem "OPENAI_API_KEY")
    (fun _ =>
       OPENAI_API_KEY ← environ_get "OPENAI_API_KEY";
       (if negb (truthy OPENAI_API_KEY) then st_error msg_no_key else mret tt);;
       mret OPENAI_API_KEY).

(** The secrets file has an entry under the name [k]. *)
Definition named_in (k : string) (entries : list (string * pyval)) : bool :=
  existsb (fun entry => String.eqb k (fst entry)) entries.

(** [os.environ] takes the entry: nothing to copy, or a name and a value
    that [putenv] accepts. *)
Definition copyable (entry : string * pyval) : bool :=
  let legal k x :=
    negb (has_nul k || has_nul x) && negb (String.eqb k "" || has_char "=" k) in
  match entry with
  | (k, PyStr x) => legal k x
  | (k, PyInt n) => legal k (str_of_int n)
  | (_, PyBool _) | (_, PyNone) => true
  end.

(** The secrets file does not stand in the way: there is none, it has been
    read before, or every entry of it can be copied. *)
Definition secrets_readable (s : state) : Prop :=
  match secrets s with
  | None => True
  | Some entries => secrets_parsed s = true \/ forallb copyable entries = true
  end.

(** The run does not copy an entry named [k] into [os.environ]: there is
    no secrets file, it has been read before, or it has no such entry. *)
Definition not_copied (k : string) (s : state) : Prop :=
  match secrets s with
  | None => True
  | Some entries => secrets_parsed s = true \/ named_in k entries = false
  end.

(** The outside world once the logo has been read: where the other calls
    of [main] start from. *)
Definition world_at_logo (s : state) : World := snd (st_image "logo.png" (world s)).

(** No handle is to be had: an earlier load has failed and is remembered,
    or nothing is cached and the index directory is missing when the
    loader looks for it. *)
Definition load_fails (s : state) : Prop :=
  resource_cache s = Some None \/
  (resource_cache s = None /\ os_path_exists index_dir (world_at_logo s) = false).

(** Delegating the query [q] to the handle [ix] from the world [w] raises
    [e]. *)
Definition dispatch_fails (ix : Index) (q : string) (e : exn) (w : World) : Prop :=
  (exists w1, as_query_engine ix w = (Raises e, w1)) \/
  (exists qe w1 w2, as_query_engine ix w = (Returns qe, w1) /\
                    query qe q w1 = (Raises e, w2)).

(** Delegating the query [q] to the handle [ix] from the world [w] gives
    the answer object [obj]. *)
Definition dispatch_answers
    (ix : Index) (q : string) (obj : response_obj) (w : World) : Prop :=
  exists qe w1 w2,
    as_query_engine ix w = (Returns qe, w1) /\
    query qe q w1 = (Returns obj, w2).

(** ** The process around the script *)

(** What the user has done when a run starts. *)
Record interaction := Interaction { typed : string; clicked : bool }.

(** What the browser shows after a run: the elements the run has drawn
    and, when an exception has left the script, the box that shows it. *)
Record page := Page { drawn : list element; exception_box : option exn }.

(** Modelled from the spec: the runner of the page framework, which is not
    part of the script.  The spec speaks of a long-running interactive
    process in which each submission re-executes the full script body
    while the index handle stays memoized (sections 5 and 6): a run starts
    on an empty page with what the user has typed and pressed, and keeps
    the environment, the secrets, the cache and the outside world of the
    process. *)
Definition fresh_run (i : interaction) (s : state) : state :=
  State (secrets s) (secrets_parsed s) (environ s) (typed i) (clicked i)
        [] (resource_cache s) (trace s) (world s).

(** Modelled from the spec: an error of the script aborts the session with
    a visible error and does not crash the shell (sections 2 and 7): an
    exception that leaves the script ends that run, is shown under what
    the run has drawn, and the process goes on to the next interaction. *)
Definition serve (i : interaction) (s : state) : page * state :=
  match script (fresh_run i s) with
  | (Returns _, s') => (Page (ui s') None, s')
  | (Raises e, s') => (Page (ui s') (Some e), s')
  end.

(** Modelled from the spec: the life of the process, one run for each
    interaction, each from the state the run before has left. *)
Fixpoint session (inputs : list interaction) (s : state) : list page * state :=
  match inputs with
  | [] => ([], s)
  | i :: rest =>
      let (p, s1) := serve i s in
      let (pages, s2) := session rest s1 in
      (p :: pages, s2)
  end.

End Script.

(** ** A stub library

    Collaborators with fixed behaviour, in the manner of the test doubles
    the spec speaks of: the directory is present or not, the persisted
    contents load or are refused, the query interface gives a fixed answer
    or raises.  The world holds the documents behind the index and counts
    the round trips to the remote service. *)
Module Stub.

Record world_state := WorldState {
  documents : list string;
  round_trips : nat
}.

Record config := Config {
  dir_present : bool;
  load_result : outcome unit;
  engine_result : outcome unit;
  answer : outcome response_obj
}.

Definition library (c : config) : Library := {|
  World := world_state;
  Index := unit;
  QueryEngine := unit;
  StorageContext := unit;
  os_path_exists := fun _ _ => dir_present c;
  os_listdir := fun _ w => (Returns ["default__vector_store.json"; "docstore.json"; "index_store.json"], w);
  StorageContext_from_defaults := fun _ w => (Returns tt, w);
  load_index_from_storage := fun _ w => (load_result c, w);
  as_query_engine := fun _ w => (engine_result c, w);
  query := fun _ _ w => (answer c, WorldState (documents w) (S (round_trips w)));
  st_image := fun _ w => (Raises (Exn FileNotFoundError "logo.png"), w)
|}.

(** The state at the start of a run: an empty page, nothing cached. *)
Definition start (c : config) (sec : option (list (string * pyval)))
    (env : gmap string string) (typed : string) (clicked : bool)
  : @state (library c) :=
  @State (library c) sec false env typed clicked [] None []
         (WorldState ["10-K TMUS"; "10-K T"; "10-K VZ"; "10-K SATS"] 0).

Definition answering (X : pyval) : config :=
  Config true (Returns tt) (Returns tt) (Returns (ResponseObj (Some X) "<Response>")).

Definition plain (repr : string) : config :=
  Config true (Returns tt) (Returns tt) (Returns (ResponseObj None repr)).

Definition failing (e : exn) : config :=
  Config true (Returns tt) (Returns tt) (Raises e).

Definition missing_dir : config :=
  Config false (Returns tt) (Returns tt) (Raises (Exn OSError "unreachable")).

Definition corrupt (e : exn) : config :=
  Config true (Raises e) (Returns tt) (Raises (Exn OSError "unreachable")).

Definition with_key : gmap string string := {[ "OPENAI_API_KEY" := "sk-test" ]}.

Definition question : string :=
  "What are the main risk factors faced by T-Mobile?".

Definition connection_error : exn :=
  Exn (OtherException "APIConnectionError") "Connection error.".

Definition no_index_error : exn :=
  Exn ValueError "No index in storage context, check if you specified the right persist_dir.".

(** A space, a tab and a line feed. *)
Definition blank : string :=
  String " " (String (ascii_of_nat 9) (String (ascii_of_nat 10) EmptyString)).

(** What an index object of the stub holds: the documents. *)
Definition contents (w : world_state) (ix : unit) : list string := documents w.

(** A secrets file with another entry before the key. *)
Definition two_secrets : option (list (string * pyval)) :=
  Some [("OTHER", PyStr "1"); ("OPENAI_API_KEY", PyStr "sk-secret")].

(** An environment where the variable is set to the empty string. *)
Definition empty_key : gmap string string := {[ "OPENAI_API_KEY" := "" ]}.

(** The query engine cannot be built. *)
Definition no_engine (e : exn) : config :=
  Config true (Returns tt) (Raises e) (Raises (Exn OSError "unreachable")).

(** The state at the start of a later run: an empty page, and [h] in the
    slot of the cache. *)
Definition start_cached (c : config) (h : option unit)
    (env : gmap string string) (typed : string) (clicked : bool)
  : @state (library c) :=
  @State (library c) None false env typed clicked [] (Some h) []
         (WorldState ["10-K TMUS"; "10-K T"; "10-K VZ"; "10-K SATS"] 0).

End Stub.


(** * Properties of the query dispatcher *)

Section Dispatcher.
Context {L : Library}.

(** The three ways a dispatch on a loaded handle can go. *)
Lemma query_index_engine_raises (ix : Index) (q : string) (s : state) e w1 :
  as_query_engine ix (world s) = (Raises e, w1) ->
  query_index (Some ix) q s =
    (Returns (PyStr ("Error processing query: " +:+ exn_str e)),
     with_call (Call_as_query_engine ix) w1 s).
Proof.
  intros Hengine.
  unfold query_index, try_except, mbind, M_bind, extern.
  rewrite Hengine. reflexivity.
Qed.

Lemma query_index_query_raises (ix : Index) (q : string) (s : state) qe w1 e w2 :
  as_query_engine ix (world s) = (Returns qe, w1) ->
  query qe q w1 = (Raises e, w2) ->
  query_index (Some ix) q s =
    (Returns (PyStr ("Error processing query: " +:+ exn_str e)),
     with_call (Call_query qe q) w2 (with_call (Call_as_query_engine ix) w1 s)).
Proof.
  intros Hengine Hquery.
  unfold query_index, try_except, mbind, M_bind, extern.
  rewrite Hengine. simpl. rewrite Hquery. reflexivity.
Qed.

Lemma query_index_query_returns (ix : Index) (q : string) (s : state) qe w1 obj w2 :
  as_query_engine ix (world s) = (Returns qe, w1) ->
  query qe q w1 = (Returns obj, w2) ->
  query_index (Some ix) q s =
    (Returns (text_of obj),
     with_call (Call_query qe q) w2 (with_call (Call_as_query_engine ix) w1 s)).
Proof.
  intros Hengine Hquery.
  unfold query_index, try_except, mbind, M_bind, extern.
  rewrite Hengine. simpl. rewrite Hquery. reflexivity.
Qed.

(** Case analysis on what the collaborators do during one dispatch. *)
Ltac dispatch_cases ix q s :=
  let Hengine := fresh "Hengine" in
  let Hquery := fresh "Hquery" in
  destruct (as_query_engine ix (world s)) as [[qe|e] w1] eqn:Hengine;
  [ destruct (query qe q w1) as [[obj|e] w2] eqn:Hquery;
    [ rewrite (query_index_query_returns ix q s qe w1 obj w2 Hengine Hquery)
    | rewrite (query_index_query_raises ix q s qe w1 e w2 Hengine Hquery) ]
  | rewrite (query_index_engine_raises ix q s e w1 Hengine) ].

(** Dispatch never raises, whatever the handle and the collaborators do. *)
Lemma query_index_returns (index : handle) (q : string) (s : state) :
  exists v, fst (query_index index q s) = Returns v.
Proof.
  destruct index as [ix|].
  - dispatch_cases ix q s; eexists; reflexivity.
  - eexists. reflexivity.
Qed.

(** Dispatch touches the trace and the world only. *)
Lemma query_index_frame (index : handle) (q : string) (s : state) :
  let s' := snd (query_index index q s) in
  secrets s' = secrets s /\ environ s' = environ s /\
  text_area_value s' = text_area_value s /\ button_clicked s' = button_clicked s /\
  ui s' = ui s /\ resource_cache s' = resource_cache s.
Proof.
  destruct index as [ix|].
  - dispatch_cases ix q s; simpl; repeat split.
  - simpl. repeat split.
Qed.

(** Dispatch makes no call that reads the index directory or builds an
    index. *)
Lemma query_index_no_load (index : handle) (q : string) (s : state) :
  filter is_load_call (trace (snd (query_index index q s))) =
    filter is_load_call (trace s).
Proof.
  destruct index as [ix|]; [|reflexivity].
  dispatch_cases ix q s; simpl; rewrite !filter_app; simpl;
    rewrite ?app_nil_r; reflexivity.
Qed.

(** C1. On a loaded handle whose query interface returns an answer object,
    [query_index] returns the object's [response] attribute when it has
    one, and the object's [str()] form otherwise; an object whose text
    field is ["X"] gives exactly ["X"]. *)
Theorem query_index_extracts_text
    (ix : Index) (q : string) (s : state) qe w1 obj w2 :
  as_query_engine ix (world s) = (Returns qe, w1) ->
  query qe q w1 = (Returns obj, w2) ->
  let r := fst (query_index (Some ix) q s) in
  (forall v, attr_response obj = Some v -> r = Returns v) /\
  (attr_response obj = None -> r = Returns (PyStr (obj_str obj))) /\
  (forall X, attr_response obj = Some (PyStr X) -> r = Returns (PyStr X)).
Proof.
  intros Hengine Hquery r. subst r.
  rewrite (query_index_query_returns ix q s qe w1 obj w2 Hengine Hquery).
  unfold text_of. simpl.
  split; [|split].
  - intros v Hattr. rewrite Hattr. reflexivity.
  - intros Hattr. rewrite Hattr. reflexivity.
  - intros X Hattr. rewrite Hattr. reflexivity.
Qed.

(** C2. On a loaded handle, an exception raised while delegating (by
    [as_query_engine] or by [query]) is caught: [query_index] returns the
    string ["Error processing query: "] followed by the exception's
    message, nothing is raised to the caller, the state handed on differs
    in the record of calls and in the outside world only, and a later
    dispatch from that state gives what the query interface then
    answers. *)
Theorem query_index_catches_exceptions
    (ix : Index) (q : string) (s : state) (e : exn) :
  (exists w1, as_query_engine ix (world s) = (Raises e, w1)) \/
  (exists qe w1 w2, as_query_engine ix (world s) = (Returns qe, w1) /\
                    query qe q w1 = (Raises e, w2)) ->
  let r := query_index (Some ix) q s in
  fst r = Returns (PyStr ("Error processing query: " +:+ exn_str e)) /\
  (forall e', fst r <> Raises e') /\
  (ui (snd r) = ui s /\ environ (snd r) = environ s /\
   resource_cache (snd r) = resource_cache s) /\
  (forall q2 qe2 w3 obj w4,
      as_query_engine ix (world (snd r)) = (Returns qe2, w3) ->
      query qe2 q2 w3 = (Returns obj, w4) ->
      fst (query_index (Some ix) q2 (snd r)) = Returns (text_of obj)).
Proof.
  intros Hraise r.
  assert (Hres : fst r = Returns (PyStr ("Error processing query: " +:+ exn_str e))).
  { subst r. destruct Hraise as [[w1 Hengine] | (qe & w1 & w2 & Hengine & Hquery)].
    - rewrite (query_index_engine_raises ix q s e w1 Hengine). reflexivity.
    - rewrite (query_index_query_raises ix q s qe w1 e w2 Hengine Hquery). reflexivity. }
  split; [exact Hres|]. split; [|split].
  - intros e' Heq. rewrite Hres in Heq. discriminate.
  - destruct (query_index_frame (Some ix) q s) as (_ & Henv & _ & _ & Hui & Hcache).
    subst r. auto.
  - intros q2 qe2 w3 obj w4 Hengine2 Hquery2.
    rewrite (query_index_query_returns ix q2 (snd r) qe2 w3 obj w4 Hengine2 Hquery2).
    reflexivity.
Qed.

(** C3. With no handle, [query_index] returns the fixed string
    ["Error: Index not loaded properly."] and hands the state on as it
    found it: no call to a collaborator is made, the outside world is not
    touched. *)
Theorem query_index_null_handle (q : string) (s : state) :
  query_index None q s = (Returns (PyStr "Error: Index not loaded properly."), s) /\
  trace (snd (query_index None q s)) = trace s /\
  world (snd (query_index None q s)) = world s.
Proof.
  repeat split.
Qed.

(** C10. The [response] attribute is returned as it is, whatever value it
    holds: no trimming, no formatting, no conversion.  When it holds [None]
    the result is [None], when it holds the empty string the result is the
    empty string. *)
Theorem query_index_returns_attribute_verbatim
    (ix : Index) (q : string) (s : state) qe w1 obj w2 :
  as_query_engine ix (world s) = (Returns qe, w1) ->
  query qe q w1 = (Returns obj, w2) ->
  (forall v, attr_response obj = Some v ->
             fst (query_index (Some ix) q s) = Returns v) /\
  (attr_response obj = Some PyNone ->
   fst (query_index (Some ix) q s) = Returns PyNone) /\
  (attr_response obj = Some (PyStr "") ->
   fst (query_index (Some ix) q s) = Returns (PyStr "")).
Proof.
  intros Hengine Hquery.
  assert (Hall : forall v, attr_response obj = Some v ->
                           fst (query_index (Some ix) q s) = Returns v).
  { intros v Hattr.
    rewrite (query_index_query_returns ix q s qe w1 obj w2 Hengine Hquery).
    unfold text_of. rewrite Hattr. reflexivity. }
  split; [exact Hall|]. split; intros Hattr; apply Hall; exact Hattr.
Qed.

End Dispatcher.

Section ReadOnlyHandle.
Context {L : Library}.

(** What an index object holds, read off the outside world. *)
Variable Contents : Type.
Variable contents : World -> Index -> Contents.

(** The query interface of the library reads the index and does not write
    it (spec, data model: the handle is read-only after construction). *)
Hypothesis as_query_engine_reads :
  forall ix w ix', contents (snd (as_query_engine ix w)) ix' = contents w ix'.
Hypothesis query_reads :
  forall qe q w ix', contents (snd (query qe q w)) ix' = contents w ix'.

(** C8. Dispatch leaves the handle as it was: the cache slot that holds it
    is not rewritten, no call that reads the index directory or builds an
    index is made (no reload), and, the library's query interface being
    read-only on index objects, every index object holds after the
    dispatch what it held before. *)
Theorem query_index_leaves_handle_unchanged
    (index : handle) (q : string) (s : state) :
  let s' := snd (query_index index q s) in
  resource_cache s' = resource_cache s /\
  filter is_load_call (trace s') = filter is_load_call (trace s) /\
  (forall ix', contents (world s') ix' = contents (world s) ix').
Proof.
  destruct index as [ix|]; [|simpl; auto].
  pose proof (as_query_engine_reads ix (world s)) as Hengine_reads.
  destruct (as_query_engine ix (world s)) as [[qe|e] w1] eqn:Hengine.
  - pose proof (query_reads qe q w1) as Hquery_reads.
    destruct (query qe q w1) as [[obj|e] w2] eqn:Hquery.
    + rewrite (query_index_query_returns ix q s qe w1 obj w2 Hengine Hquery).
      simpl in *. rewrite !filter_app. simpl. rewrite !app_nil_r.
      repeat split. intros ix'. rewrite Hquery_reads. apply Hengine_reads.
    + rewrite (query_index_query_raises ix q s qe w1 e w2 Hengine Hquery).
      simpl in *. rewrite !filter_app. simpl. rewrite !app_nil_r.
      repeat split. intros ix'. rewrite Hquery_reads. apply Hengine_reads.
  - rewrite (query_index_engine_raises ix q s e w1 Hengine).
    simpl in *. rewrite !filter_app. simpl. rewrite !app_nil_r.
    repeat split. exact Hengine_reads.
Qed.

End ReadOnlyHandle.

(** * Properties of the index loader *)

Section Loader.
Context {L : Library}.

Lemma body_absent (s : state) :
  os_path_exists index_dir (world s) = false ->
  load_vector_index_body s =
    (Returns None,
     with_ui (ui s ++ [StError msg_no_directory])
             (with_call (Call_exists index_dir) (world s) s)).
Proof.
  intros Habsent.
  unfold load_vector_index_body, try_except, mbind, M_bind, extern.
  rewrite Habsent. reflexivity.
Qed.

(** Whatever the collaborators do, the body returns, and it returns a
    handle only when the library built one. *)
Lemma body_cases (s : state) :
  (os_path_exists index_dir (world s) = false /\
   fst (load_vector_index_body s) = Returns None) \/
  (exists e, raised_during_load (world s) e /\
             fst (load_vector_index_body s) = Returns None /\
             last (ui (snd (load_vector_index_body s))) =
               Some (StError ("Error loading index: " +:+ exn_str e))) \/
  (exists ix, loads_as (world s) ix /\
              fst (load_vector_index_body s) = Returns (Some ix)).
Proof.
  destruct (os_path_exists index_dir (world s)) eqn:Hpresent.
  2:{ left. split; [reflexivity|]. rewrite body_absent by exact Hpresent. reflexivity. }
  right.
  unfold raised_during_load, loads_as.
  unfold load_vector_index_body, try_except, mbind, M_bind, extern,
    st_write, st_write_list, st_error, render, mret, M_ret.
  rewrite Hpresent. simpl.
  destruct (os_listdir index_dir (world s)) as [[names|e] w1] eqn:Hlist; simpl.
  2:{ left. exists e. split; [split; [reflexivity|left; eauto]|].
      split; [reflexivity|]. apply last_snoc. }
  destruct (StorageContext_from_defaults index_dir w1) as [[sc|e] w2] eqn:Hctx; simpl.
  2:{ left. exists e. split; [split; [reflexivity|right; left; eauto]|].
      split; [reflexivity|]. apply last_snoc. }
  destruct (load_index_from_storage sc w2) as [[ix|e] w3] eqn:Hload; simpl.
  2:{ left. exists e. split; [split; [reflexivity|right; right; eauto 10]|].
      split; [reflexivity|]. apply last_snoc. }
  right. exists ix. split; [|reflexivity].
  split; [reflexivity|]. eauto 10.
Qed.

Lemma body_returns (s : state) :
  exists h, fst (load_vector_index_body s) = Returns h.
Proof.
  destruct (body_cases s) as [[_ H] | [(e & _ & H & _) | (ix & _ & H)]]; eauto.
Qed.

Lemma body_raised (s : state) (e : exn) :
  raised_during_load (world s) e ->
  fst (load_vector_index_body s) = Returns None /\
  last (ui (snd (load_vector_index_body s))) =
    Some (StError ("Error loading index: " +:+ exn_str e)).
Proof.
  intros [Hpresent Hraise].
  unfold load_vector_index_body, try_except, mbind, M_bind, extern,
    st_write, st_write_list, st_error, render, mret, M_ret.
  rewrite Hpresent. simpl.
  destruct Hraise as [[w1 Hlist] | [(names & w1 & w2 & Hlist & Hctx)
                                   | (names & w1 & sc & w2 & w3 & Hlist & Hctx & Hload)]].
  - rewrite Hlist. simpl. split; [reflexivity|apply last_snoc].
  - rewrite Hlist. simpl. rewrite Hctx. simpl. split; [reflexivity|apply last_snoc].
  - rewrite Hlist. simpl. rewrite Hctx. simpl. rewrite Hload. simpl.
    split; [reflexivity|apply last_snoc].
Qed.

Lemma body_loads (s : state) (ix : Index) :
  loads_as (world s) ix -> fst (load_vector_index_body s) = Returns (Some ix).
Proof.
  intros (Hpresent & names & w1 & sc & w2 & w3 & Hlist & Hctx & Hload).
  unfold load_vector_index_body, try_except, mbind, M_bind, extern,
    st_write, st_write_list, st_error, render, mret, M_ret.
  rewrite Hpresent. simpl. rewrite Hlist. simpl. rewrite Hctx. simpl.
  rewrite Hload. reflexivity.
Qed.

Lemma body_handle_built (s : state) (ix : Index) :
  fst (load_vector_index_body s) = Returns (Some ix) -> loads_as (world s) ix.
Proof.
  intros Hsome.
  destruct (body_cases s) as [[_ H] | [(e & _ & H & _) | (ix' & Hloads & H)]];
    rewrite H in Hsome; try discriminate.
  injection Hsome as ->. exact Hloads.
Qed.

(** The calls of one execution of the body: the directory is examined
    once, an index is built at most once, and the cache slot is left
    alone. *)
Lemma body_trace (s : state) :
  exists calls : list call,
    trace (snd (load_vector_index_body s)) = trace s ++ calls /\
    length (filter is_exists_call calls) = 1 /\
    length (filter is_construction_call calls) <= 1 /\
    resource_cache (snd (load_vector_index_body s)) = resource_cache s.
Proof.
  unfold load_vector_index_body, try_except, mbind, M_bind, extern,
    st_write, st_write_list, st_error, render, mret, M_ret.
  destruct (os_path_exists index_dir (world s)); simpl.
  2:{ eexists. split; [reflexivity|]. simpl. auto. }
  destruct (os_listdir index_dir (world s)) as [[names|e] w1]; simpl.
  2:{ eexists. rewrite <- app_assoc. split; [reflexivity|]. simpl. auto. }
  destruct (StorageContext_from_defaults index_dir w1) as [[sc|e] w2]; simpl.
  2:{ eexists. rewrite <- !app_assoc. split; [reflexivity|]. simpl. auto. }
  destruct (load_index_from_storage sc w2) as [[ix|e] w3]; simpl;
    eexists; rewrite <- !app_assoc; (split; [reflexivity|]); simpl; auto.
Qed.

Lemma cache_hit (s : state) (h : handle) :
  resource_cache s = Some h -> load_vector_index s = (Returns h, s).
Proof.
  intros Hcached. unfold load_vector_index, cache_resource.
  rewrite Hcached. reflexivity.
Qed.

Lemma cache_miss (s : state) (h : handle) :
  resource_cache s = None ->
  fst (load_vector_index_body s) = Returns h ->
  load_vector_index s = (Returns h, with_cache (Some h) (snd (load_vector_index_body s))).
Proof.
  intros Hempty Hbody. unfold load_vector_index, cache_resource.
  rewrite Hempty.
  destruct (load_vector_index_body s) as [r s']. simpl in Hbody. subst r.
  reflexivity.
Qed.

(** Every invocation returns, and the slot then holds what it returned. *)
Lemma load_vector_index_returns (s : state) :
  exists h, fst (load_vector_index s) = Returns h /\
            resource_cache (snd (load_vector_index s)) = Some h.
Proof.
  destruct (resource_cache s) as [h|] eqn:Hcache.
  - exists h. rewrite (cache_hit s h Hcache). auto.
  - destruct (body_returns s) as [h Hbody]. exists h.
    rewrite (cache_miss s h Hcache Hbody). auto.
Qed.

(** C4. The loader yields no handle on a load failure.  When the index
    directory is absent it renders the error about the missing directory
    and returns [None]; when the library raises while the directory is
    listed, the storage context opened or the index built (which is how
    invalid contents show), it renders ["Error loading index: "] with the
    exception's message and returns [None]; a handle, when one is
    returned, is the index the library built (never anything partial);
    and a valid persisted index yields that index as the handle.  The
    first invocation of the cached function gives what the body gives. *)
Theorem load_vector_index_failure_yields_no_handle (s : state) :
  let r := load_vector_index_body s in
  (os_path_exists index_dir (world s) = false ->
   fst r = Returns None /\
   last (ui (snd r)) = Some (StError msg_no_directory)) /\
  (forall e, raised_during_load (world s) e ->
   fst r = Returns None /\
   last (ui (snd r)) = Some (StError ("Error loading index: " +:+ exn_str e))) /\
  (forall ix, fst r = Returns (Some ix) -> loads_as (world s) ix) /\
  (forall ix, loads_as (world s) ix -> fst r = Returns (Some ix)) /\
  (resource_cache s = None -> fst (load_vector_index s) = fst r).
Proof.
  intros r. subst r. split; [|split; [|split; [|split]]].
  - intros Habsent. rewrite (body_absent s Habsent). simpl.
    split; [reflexivity|apply last_snoc].
  - apply body_raised.
  - apply body_handle_built.
  - apply body_loads.
  - intros Hempty. destruct (body_returns s) as [h Hbody].
    rewrite (cache_miss s h Hempty Hbody). rewrite Hbody. reflexivity.
Qed.

End Loader.

(** * Properties of the page *)

Section Page.
Context {L : Library}.

Ltac run :=
  unfold before_submit, render_header, render_about, process_submit,
    st_spinner, load_vector_index, cache_resource, load_vector_index_body,
    try_except, mbind, M_bind, extern, st_write, st_write_list, st_error,
    st_warning, st_static, st_text_area, st_button, render, mret, M_ret.

Lemma main_unfold (s : state) :
  main s =
    match before_submit s with
    | (Returns (index, query, submit_button), s1) =>
        (process_submit index query submit_button;; render_about) s1
    | (Raises e, s1) => (Raises e, s1)
    end.
Proof.
  unfold main, before_submit, st_spinner, mbind, M_bind.
  destruct (render_header s) as [[[]|e] s0]; [|reflexivity].
  destruct (load_vector_index s0) as [[index|e] s1]; [|reflexivity].
  destruct (truthy_handle index); reflexivity.
Qed.

(** What is drawn before the submit action: no call to a query interface,
    no response, no validation message; the inputs are those of the run. *)
Lemma before_submit_spec (s : state) :
  exists index s1 (calls : list call) (els : list element),
    before_submit s = (Returns (index, text_area_value s, button_clicked s), s1) /\
    trace s1 = trace s ++ calls /\ filter is_query_call calls = [] /\
    ui s1 = ui s ++ els /\ filter is_response_heading els = [] /\
    filter is_validation_error els = [] /\
    resource_cache s1 = Some index /\
    (forall h, resource_cache s = Some h -> index = h /\ filter is_load_call calls = []).
Proof.
  run.
  destruct (st_image "logo.png" (world s)) as [[[]|e0] w0]; simpl;
  (destruct (resource_cache s) as [[ix|]|] eqn:Hcache; simpl;
   [ | | destruct (os_path_exists index_dir w0); simpl;
         [ destruct (os_listdir index_dir w0) as [[names|e1] w1]; simpl;
           [ destruct (StorageContext_from_defaults index_dir w1) as [[sc|e2] w2]; simpl;
             [ destruct (load_index_from_storage sc w2) as [[ix|e3] w3]; simpl | ]
           | ]
         | ] ]);
  do 4 eexists; (split; [reflexivity|]); simpl; rewrite <- ?app_assoc; simpl;
  rewrite ?Hcache;
  (split; [reflexivity|]); (split; [reflexivity|]); (split; [reflexivity|]);
  (split; [reflexivity|]); (split; [reflexivity|]); (split; [reflexivity|]);
  intros h [=]; subst; split; reflexivity.
Qed.

Lemma render_about_spec (s : state) :
  exists els : list element,
    render_about s = (Returns tt, with_ui (ui s ++ els) s) /\
    filter is_response_heading els = [] /\
    filter is_validation_error els = [] /\
    filter is_query_call (trace (with_ui (ui s ++ els) s)) = filter is_query_call (trace s).
Proof.
  run. simpl. rewrite <- ?app_assoc. simpl.
  eexists. split; [reflexivity|]. repeat split.
Qed.

Lemma py_isspace_nonempty (text : string) :
  py_isspace text = true -> text <> "".
Proof.
  destruct text; [discriminate|]. intros _. discriminate.
Qed.

Lemma truthy_nonempty (text : string) :
  text <> "" -> truthy (PyStr text) = true.
Proof.
  intros Hne. simpl. destruct (String.eqb_spec text ""); [contradiction|reflexivity].
Qed.

(** A query that is not the empty string goes to the dispatcher as typed,
    and its answer is drawn under the response heading. *)
Lemma main_dispatches_nonempty (s : state) :
  text_area_value s <> "" -> button_clicked s = true -> dispatched s.
Proof.
  intros Hne Hclicked. unfold dispatched.
  destruct (before_submit_spec s)
    as (index & s1 & calls & els & Hbefore & Htrace & _ & Hui & _ & Hnoval & _).
  rewrite Hclicked in Hbefore.
  destruct (query_index_returns index (text_area_value s) s1) as [response Hresp].
  destruct (query_index index (text_area_value s) s1) as [r s2] eqn:Hdispatch.
  simpl in Hresp. subst r.
  assert (Hmain : main s =
    (st_write (PyStr "### Response");; st_write response;; render_about) s2).
  { rewrite main_unfold, Hbefore.
    unfold process_submit, st_spinner, mbind, M_bind.
    rewrite (truthy_nonempty _ Hne). simpl. rewrite Hdispatch. reflexivity. }
  exists index, s1, response, s2.
  split; [exact Hbefore|]. split; [exact Hdispatch|]. split; [exact Hmain|].
  destruct (query_index_frame index (text_area_value s) s1)
    as (_ & _ & _ & _ & Hui2 & _).
  rewrite Hdispatch in Hui2. simpl in Hui2.
  rewrite Hmain. run. simpl. rewrite Hui2, Hui.
  split; [|split].
  - rewrite <- ?app_assoc, !filter_app, Hnoval. simpl.
    destruct response as [| | |text]; simpl; rewrite ?app_nil_r; reflexivity.
  - rewrite <- ?app_assoc. apply in_or_app. right. apply in_or_app. right.
    simpl. auto.
  - intros ix ->. clear Hmain.
    revert Hdispatch.
    destruct (as_query_engine ix (world s1)) as [[qe|e] w1] eqn:Hengine.
    + destruct (query qe (text_area_value s) w1) as [[obj|e] w2] eqn:Hquery.
      * rewrite (query_index_query_returns ix _ s1 qe w1 obj w2 Hengine Hquery).
        intros [= _ <-]. simpl. apply in_or_app. left.
        apply in_or_app. right. simpl. auto.
      * rewrite (query_index_query_raises ix _ s1 qe w1 e w2 Hengine Hquery).
        intros [= _ <-]. simpl. apply in_or_app. left.
        apply in_or_app. right. simpl. auto.
    + rewrite (query_index_engine_raises ix _ s1 e w1 Hengine).
      intros [= _ <-]. simpl. apply in_or_app. right. simpl. auto.
Qed.

(** C7. When the submit action fires on an empty query, [main] draws the
    validation message and goes on to the rest of the page from the state
    reached before the submit action was looked at: the run returns, it
    adds exactly one validation message, no response heading and no call
    to a query interface, loaded handle or not.  [query_index] does not
    look at the query: given the empty string and a loaded handle it
    passes the empty string to the query interface. *)
Theorem main_rejects_empty_query (s : state) :
  text_area_value s = "" -> button_clicked s = true ->
  fst (main s) = Returns tt /\
  (exists index s1,
      before_submit s = (Returns (index, "", true), s1) /\
      main s = (st_error "Please enter a query.";; render_about) s1) /\
  filter is_validation_error (ui (snd (main s))) =
    filter is_validation_error (ui s) ++ [StError "Please enter a query."] /\
  filter is_response_heading (ui (snd (main s))) =
    filter is_response_heading (ui s) /\
  filter is_query_call (trace (snd (main s))) = filter is_query_call (trace s) /\
  (forall ix s0 qe w1 obj w2,
      as_query_engine ix (world s0) = (Returns qe, w1) ->
      query qe "" w1 = (Returns obj, w2) ->
      query_index (Some ix) "" s0 =
        (Returns (text_of obj),
         with_call (Call_query qe "") w2 (with_call (Call_as_query_engine ix) w1 s0))).
Proof.
  intros Hempty Hclicked.
  destruct (before_submit_spec s)
    as (index & s1 & calls & els & Hbefore & Htrace & Hnoquery & Hui & Hnoresp & Hnoval & _).
  rewrite Hempty, Hclicked in Hbefore.
  assert (Hmain : main s = (st_error "Please enter a query.";; render_about) s1).
  { rewrite main_unfold, Hbefore. reflexivity. }
  split; [|split; [|split; [|split; [|split]]]].
  - rewrite Hmain. reflexivity.
  - exists index, s1. split; [exact Hbefore|exact Hmain].
  - rewrite Hmain. run. simpl. rewrite Hui.
    rewrite <- ?app_assoc, !filter_app, Hnoval. simpl. reflexivity.
  - rewrite Hmain. run. simpl. rewrite Hui.
    rewrite <- ?app_assoc, !filter_app, Hnoresp. simpl.
    rewrite app_nil_r. reflexivity.
  - rewrite Hmain. run. simpl. rewrite Htrace.
    rewrite filter_app, Hnoquery, app_nil_r. reflexivity.
  - intros ix s0 qe w1 obj w2 Hengine Hquery.
    apply query_index_query_returns; assumption.
Qed.

(** C9. The check before dispatch turns away the empty string only: when
    the submit action fires, every query other than the empty string is
    dispatched.  In particular a query made of whitespace and nothing else
    is truthy, passes the check and is handed to [query_index] as typed,
    with no validation message. *)
Theorem main_dispatches_whitespace_query (s : state) :
  button_clicked s = true ->
  (text_area_value s <> "" -> dispatched s) /\
  (py_isspace (text_area_value s) = true ->
   truthy (PyStr (text_area_value s)) = true /\ dispatched s).
Proof.
  intros Hclicked. split.
  - intros Hne. apply main_dispatches_nonempty; assumption.
  - intros Hspace.
    pose proof (py_isspace_nonempty _ Hspace) as Hne.
    split; [apply truthy_nonempty; exact Hne|].
    apply main_dispatches_nonempty; assumption.
Qed.

End Page.

(** * Properties of the start of the script *)

Section Startup.
Context {L : Library}.

Lemma same_session_refl (s : state) : same_session s s.
Proof. repeat split. Qed.

Lemma same_session_trans (s1 s2 s3 : state) :
  same_session s1 s2 -> same_session s2 s3 -> same_session s1 s3.
Proof.
  unfold same_session. intros (? & ? & ? & ? & ? & ? & ?) (? & ? & ? & ? & ? & ? & ?).
  repeat split; congruence.
Qed.

Lemma named_in_lookup (k : string) (entries : list (string * pyval)) :
  lookup_secret k entries = None <-> named_in k entries = false.
Proof.
  induction entries as [|[k' v] rest IH]; simpl; [tauto|].
  destruct (String.eqb k k'); simpl; [split; discriminate|exact IH].
Qed.

(** Storing into [os.environ]: the other variables stay, and when the step
    returns the variable holds a string. *)
Lemma environ_set_spec (k : string) (v : pyval) (s : state) :
  same_session s (snd (environ_set k v s)) /\
  secrets_parsed (snd (environ_set k v s)) = secrets_parsed s /\
  (forall k', k' <> k ->
     environ (snd (environ_set k v s)) !! k' = environ s !! k') /\
  (fst (environ_set k v s) = Returns tt ->
     exists x, v = PyStr x /\ environ (snd (environ_set k v s)) !! k = Some x) /\
  (forall e, fst (environ_set k v s) = Raises e ->
     snd (environ_set k v s) = s /\
     (exn_type e = TypeError \/ exn_type e = ValueError)).
Proof.
  unfold environ_set.
  destruct v as [| | |x]; simpl;
    try (split; [apply same_session_refl|]; split; [reflexivity|];
         split; [reflexivity|]; split; [discriminate|];
         intros e [= <-]; simpl; auto).
  destruct (has_nul k || has_nul x); simpl.
  { split; [apply same_session_refl|]. split; [reflexivity|].
    split; [reflexivity|]. split; [discriminate|].
    intros e [= <-]; simpl; auto. }
  destruct (String.eqb k "" || has_char "=" k); simpl.
  { split; [apply same_session_refl|]. split; [reflexivity|].
    split; [reflexivity|]. split; [discriminate|].
    intros e [= <-]; simpl; auto. }
  split; [repeat split|]. split; [reflexivity|].
  split; [intros k' Hk'; apply lookup_insert_ne; congruence|].
  split; [intros _; exists x; split; [reflexivity|apply lookup_insert_eq]|].
  discriminate.
Qed.

(** The copy of the secrets: variables the file does not name stay. *)
Lemma copy_secrets_spec (entries : list (string * pyval)) (s : state) :
  same_session s (snd (copy_secrets entries s)) /\
  secrets_parsed (snd (copy_secrets entries s)) = secrets_parsed s /\
  (forall k, named_in k entries = false ->
     environ (snd (copy_secrets entries s)) !! k = environ s !! k).
Proof.
  revert s. induction entries as [|[k v] rest IH]; intros s.
  { split; [apply same_session_refl|]. split; reflexivity. }
  simpl. unfold mbind, M_bind.
  assert (Hstep : same_session s (snd (maybe_set_environment_variable k v s)) /\
                  secrets_parsed (snd (maybe_set_environment_variable k v s))
                    = secrets_parsed s /\
                  (forall k', k' <> k ->
                     environ (snd (maybe_set_environment_variable k v s)) !! k'
                       = environ s !! k')).
  { destruct v as [| |n|x]; simpl;
      try (split; [apply same_session_refl|]; split; reflexivity).
    - destruct (environ_set_spec k (PyStr (str_of_int n)) s) as (H1 & H2 & H3 & _).
      auto.
    - destruct (environ_set_spec k (PyStr x) s) as (H1 & H2 & H3 & _). auto. }
  destruct Hstep as (Hsame & Hparsed & Hothers).
  destruct (maybe_set_environment_variable k v s) as [[[]|e] s1]; simpl in *.
  - destruct (IH s1) as (Hsame' & Hparsed' & Hothers').
    split; [eapply same_session_trans; eassumption|].
    split; [congruence|].
    intros k' Hnamed. apply orb_false_elim in Hnamed as [Hk' Hrest].
    rewrite Hothers' by exact Hrest. apply Hothers.
    intros ->. rewrite String.eqb_refl in Hk'. discriminate.
  - split; [exact Hsame|]. split; [exact Hparsed|].
    intros k' Hnamed. apply orb_false_elim in Hnamed as [Hk' _].
    apply Hothers. intros ->. rewrite String.eqb_refl in Hk'. discriminate.
Qed.

(** Reading [st.secrets[k]]: a value returned is the entry of the file; a
    variable the run does not copy stays; without a file, or with the file
    read before, nothing changes. *)
Lemma secrets_getitem_spec (k : string) (s : state) :
  same_session s (snd (secrets_getitem k s)) /\
  (forall k', not_copied k' s ->
     environ (snd (secrets_getitem k s)) !! k' = environ s !! k') /\
  (secrets s = None \/ secrets_parsed s = true -> snd (secrets_getitem k s) = s) /\
  (forall v, fst (secrets_getitem k s) = Returns v ->
     exists entries, secrets s = Some entries /\ lookup_secret k entries = Some v).
Proof.
  unfold secrets_getitem, parse_secrets, not_copied, mbind, M_bind, raise, mret, M_ret.
  destruct (secrets s) as [entries|] eqn:Hstore.
  2:{ simpl. split; [apply same_session_refl|]. split; [reflexivity|].
      split; [reflexivity|]. discriminate. }
  destruct (secrets_parsed s) eqn:Hparsed.
  { destruct (lookup_secret k entries) as [v|] eqn:Hlookup; simpl;
      (split; [apply same_session_refl|]); (split; [reflexivity|]);
      (split; [reflexivity|]).
    - intros v' [= <-]. eauto.
    - discriminate. }
  destruct (copy_secrets_spec entries s) as (Hsame & _ & Hothers).
  destruct (copy_secrets entries s) as [[[]|e] s1]; simpl in *.
  - assert (Hsame' : same_session s (with_parsed s1)) by exact Hsame.
    destruct (lookup_secret k entries) as [v|] eqn:Hlookup; simpl;
      (split; [exact Hsame'|]);
      (split; [intros k' [Habs | Hnamed]; [discriminate|apply Hothers; exact Hnamed]|]);
      (split; [intros [Habs | Habs]; discriminate|]).
    + intros v' [= <-]. eauto.
    + discriminate.
  - split; [exact Hsame|].
    split; [intros k' [Habs | Hnamed]; [discriminate|apply Hothers; exact Hnamed]|].
    split; [intros [Habs | Habs]; discriminate|]. discriminate.
Qed.

Lemma credentials_key_found (s : state) :
  credentials s =
    match key_found s with
    | (Returns v, s1) => environ_set "OPENAI_API_KEY" v s1
    | (Raises e, s1) => (Raises e, s1)
    end.
Proof. reflexivity. Qed.

(** Without the key in the secrets file, the variable of the script is
    bound to what the environment holds, and the error is drawn when that
    is nothing or the empty string. *)
Lemma key_found_fallback (s : state) :
  no_secret s ->
  exists s1,
    key_found s = (Returns (of_lookup (environ s !! "OPENAI_API_KEY")), s1) /\
    secrets s1 = secrets s /\ resource_cache s1 = resource_cache s /\
    trace s1 = trace s /\ world s1 = world s /\
    environ s1 !! "OPENAI_API_KEY" = environ s !! "OPENAI_API_KEY" /\
    (forall k, not_copied k s -> environ s1 !! k = environ s !! k) /\
    ui s1 = ui s ++ (if negb (truthy (of_lookup (environ s !! "OPENAI_API_KEY")))
                     then [StError msg_no_key] else []) /\
    (secrets s = None \/ secrets_parsed s = true ->
     environ s1 = environ s /\ secrets_parsed s1 = secrets_parsed s).
Proof.
  intros Hnosecret.
  assert (Hnot : not_copied "OPENAI_API_KEY" s).
  { unfold not_copied. destruct Hnosecret as [-> | (m & -> & Hlookup)]; [exact I|].
    right. apply named_in_lookup. exact Hlookup. }
  destruct (secrets_getitem_spec "OPENAI_API_KEY" s)
    as ((Hsec & _ & _ & Hui & Hcache & Htrace & Hworld) & Hothers & Hsame & Hvalue).
  unfold key_found, try_except.
  destruct (secrets_getitem "OPENAI_API_KEY" s) as [[v|e] s1] eqn:Hget; simpl in *.
  { destruct (Hvalue v eq_refl) as (entries & Hstore & Hlookup).
    destruct Hnosecret as [Hnone | (m & Hsome & Hlookup')]; congruence. }
  unfold mbind, M_bind, environ_get, st_error, render, mret, M_ret.
  rewrite (Hothers _ Hnot).
  destruct (negb (truthy (of_lookup (environ s !! "OPENAI_API_KEY")))); simpl;
    eexists; (split; [reflexivity|]); simpl; rewrite ?app_nil_r;
    (split; [exact Hsec|]); (split; [exact Hcache|]); (split; [exact Htrace|]);
    (split; [exact Hworld|]); (split; [apply Hothers; exact Hnot|]);
    (split; [exact Hothers|]); (split; [congruence|]);
    intros Heasy; rewrite (Hsame Heasy); split; reflexivity.
Qed.

(** The credential in neither store: one run of lines 58-67. *)
Lemma credentials_absent (s : state) :
  credential_absent s ->
  exists s',
    credentials s = (Raises (Exn TypeError "str expected, not NoneType"), s') /\
    ui s' = ui s ++ [StError msg_no_key] /\
    secrets s' = secrets s /\ resource_cache s' = resource_cache s /\
    trace s' = trace s /\ world s' = world s /\
    environ s' !! "OPENAI_API_KEY" = None.
Proof.
  intros [Hnosecret Henv].
  destruct (key_found_fallback s Hnosecret)
    as (s1 & Hfound & Hsec & Hcache & Htrace & Hworld & Hkey & _ & Hui & _).
  rewrite Henv in Hfound, Hkey, Hui. simpl in Hfound, Hui.
  rewrite credentials_key_found, Hfound. simpl.
  exists s1. repeat split; assumption.
Qed.

(** The neighbouring path: the variable is set but empty.  The same error
    is drawn, and the script goes on. *)
Lemma credentials_empty_variable (s : state) :
  secrets s = None ->
  environ s !! "OPENAI_API_KEY" = Some "" ->
  credentials s =
    (Returns tt,
     with_environ (<["OPENAI_API_KEY" := ""]> (environ s))
                  (with_ui (ui s ++ [StError msg_no_key]) s)).
Proof.
  intros Hnone Henv.
  unfold credentials, secrets_getitem, parse_secrets, try_except, mbind, M_bind,
    environ_get, environ_set, st_error, render, mret, M_ret.
  rewrite Hnone. simpl. rewrite Henv. reflexivity.
Qed.

Lemma script_unfold (s : state) :
  script s =
    match credentials (after_preamble s) with
    | (Returns _, s5) => main s5
    | (Raises e, s5) => (Raises e, s5)
    end.
Proof.
  unfold script, mbind, M_bind, st_static, render, environ_set. simpl.
  rewrite <- app_assoc. simpl.
  match goal with |- context [credentials ?st] =>
    change st with (after_preamble s)
  end.
  destruct (credentials (after_preamble s)) as [[[]|e] s5]; reflexivity.
Qed.

Lemma preamble_key (s : state) :
  environ (after_preamble s) !! "OPENAI_API_KEY" = environ s !! "OPENAI_API_KEY".
Proof.
  unfold after_preamble. simpl. rewrite !lookup_insert_ne by discriminate.
  reflexivity.
Qed.

Lemma script_absent (s : state) :
  credential_absent s ->
  exists s',
    script s = (Raises (Exn TypeError "str expected, not NoneType"), s') /\
    ui s' = ui s ++ [StStatic PageConfig; StStatic StyleSheet; StError msg_no_key] /\
    resource_cache s' = resource_cache s /\
    credential_absent s'.
Proof.
  intros [Hnosecret Henv].
  assert (Habsent : credential_absent (after_preamble s)).
  { split; [exact Hnosecret|]. rewrite preamble_key. exact Henv. }
  destruct (credentials_absent _ Habsent)
    as (s' & Hcred & Hui & Hsec & Hcache & _ & _ & Hkey).
  exists s'. rewrite script_unfold, Hcred.
  split; [reflexivity|]. split; [|split; [exact Hcache|]].
  - rewrite Hui. unfold after_preamble. simpl. rewrite <- app_assoc. reflexivity.
  - split; [|exact Hkey]. unfold no_secret in Hnosecret.
    change (secrets (after_preamble s)) with (secrets s) in Hsec.
    rewrite Hsec. exact Hnosecret.
Qed.

Lemma session_length (inputs : list interaction) (s : state) :
  length (fst (session inputs s)) = length inputs.
Proof.
  revert s. induction inputs as [|i rest IH]; intros s; [reflexivity|].
  simpl. destruct (serve i s) as [p s1]. specialize (IH s1).
  destruct (session rest s1) as [pages s2]. simpl in *. congruence.
Qed.

(** C6. With the credential in neither store, a run of the script draws
    the error about the missing key and ends at line 67 in a [TypeError];
    nothing of [main] is drawn, so the page cannot be used.  The shell
    stays up: whatever the user goes on to do, every interaction gets its
    run and its page, each page shows the error, the exception in its box
    and nothing else, and the credential is missing still. *)
Theorem credential_absence_blocks_without_crash
    (s : state) (inputs : list interaction) :
  credential_absent s ->
  fst (script s) = Raises (Exn TypeError "str expected, not NoneType") /\
  In (StError msg_no_key) (ui (snd (script s))) /\
  filter is_main_element (ui (snd (script s))) = filter is_main_element (ui s) /\
  length (fst (session inputs s)) = length inputs /\
  Forall (fun p =>
            drawn p = [StStatic PageConfig; StStatic StyleSheet; StError msg_no_key] /\
            exception_box p = Some (Exn TypeError "str expected, not NoneType"))
         (fst (session inputs s)) /\
  credential_absent (snd (session inputs s)).
Proof.
  intros Habsent.
  destruct (script_absent s Habsent) as (s' & Hscript & Hui & _ & _).
  split; [rewrite Hscript; reflexivity|].
  split; [rewrite Hscript; simpl; rewrite Hui, in_app_iff; simpl; tauto|].
  split; [rewrite Hscript; simpl; rewrite Hui, filter_app; simpl;
          rewrite app_nil_r; reflexivity|].
  split; [apply session_length|].
  clear s' Hscript Hui. revert s Habsent.
  induction inputs as [|i rest IH]; intros s Habsent.
  { simpl. split; [constructor|exact Habsent]. }
  assert (Hfresh : credential_absent (fresh_run i s)) by exact Habsent.
  destruct (script_absent _ Hfresh) as (s1 & Hscript & Hui & _ & Habsent1).
  simpl. unfold serve. rewrite Hscript.
  destruct (IH s1 Habsent1) as [Hpages Hlast].
  destruct (session rest s1) as [pages s2]. simpl in *.
  split; [|exact Hlast].
  constructor; [|exact Hpages]. simpl. rewrite Hui. split; reflexivity.
Qed.

(** Lines 59-64 always bind the variable: every exception of the access
    to the secrets is caught. *)
Lemma key_found_spec (s : state) :
  exists v s1,
    key_found s = (Returns v, s1) /\
    secrets s1 = secrets s /\ resource_cache s1 = resource_cache s /\
    trace s1 = trace s /\ world s1 = world s /\
    text_area_value s1 = text_area_value s /\
    button_clicked s1 = button_clicked s /\
    (ui s1 = ui s \/ ui s1 = ui s ++ [StError msg_no_key]) /\
    (forall k, not_copied k s -> environ s1 !! k = environ s !! k).
Proof.
  destruct (secrets_getitem_spec "OPENAI_API_KEY" s)
    as ((Hsec & Htext & Hbutton & Hui & Hcache & Htrace & Hworld) & Hothers & _).
  unfold key_found, try_except.
  destruct (secrets_getitem "OPENAI_API_KEY" s) as [[v|e] s1]; simpl in *.
  { exists v, s1. repeat split; auto. }
  unfold mbind, M_bind, environ_get, st_error, render, mret, M_ret.
  destruct (negb (truthy (of_lookup (environ s1 !! "OPENAI_API_KEY")))); simpl;
    do 2 eexists; (split; [reflexivity|]); simpl;
    repeat (split; [assumption|]); (split; [|exact Hothers]).
  - right. congruence.
  - left. exact Hui.
Qed.

(** Lines 58-67 as a whole: only line 67 can raise; when it does not, the
    variable is set in [os.environ]. *)
Lemma credentials_spec (s : state) :
  secrets (snd (credentials s)) = secrets s /\
  resource_cache (snd (credentials s)) = resource_cache s /\
  trace (snd (credentials s)) = trace s /\
  world (snd (credentials s)) = world s /\
  text_area_value (snd (credentials s)) = text_area_value s /\
  button_clicked (snd (credentials s)) = button_clicked s /\
  (ui (snd (credentials s)) = ui s \/
   ui (snd (credentials s)) = ui s ++ [StError msg_no_key]) /\
  (forall k, k <> "OPENAI_API_KEY" -> not_copied k s ->
     environ (snd (credentials s)) !! k = environ s !! k) /\
  (fst (credentials s) = Returns tt ->
     exists key, environ (snd (credentials s)) !! "OPENAI_API_KEY" = Some key) /\
  (forall e, fst (credentials s) = Raises e ->
     exn_type e = TypeError \/ exn_type e = ValueError).
Proof.
  destruct (key_found_spec s)
    as (v & s1 & Hfound & Hsec & Hcache & Htrace & Hworld & Htext & Hbutton
        & Hui & Hothers).
  rewrite credentials_key_found, Hfound.
  destruct (environ_set_spec "OPENAI_API_KEY" v s1)
    as ((Hsec' & Htext' & Hbutton' & Hui' & Hcache' & Htrace' & Hworld')
        & _ & Hothers' & Hret & Hraise).
  destruct (environ_set "OPENAI_API_KEY" v s1) as [r s2]. simpl in *.
  do 6 (split; [congruence|]).
  split; [destruct Hui as [Hui | Hui]; [left | right]; congruence|].
  split; [intros k Hk Hnot; rewrite (Hothers' k Hk); apply Hothers; exact Hnot|].
  split.
  - intros Hr. destruct (Hret Hr) as (x & _ & Hx). eauto.
  - intros e Hr. apply (Hraise e Hr).
Qed.

End Startup.

(** * Memoization of the loader *)

Section Memoization.
Context {L : Library}.

Lemma process_submit_frame (index : handle) (q : string) (b : bool) (s : state) :
  fst (process_submit index q b s) = Returns tt /\
  resource_cache (snd (process_submit index q b s)) = resource_cache s /\
  filter is_load_call (trace (snd (process_submit index q b s))) =
    filter is_load_call (trace s).
Proof.
  unfold process_submit, st_spinner.
  destruct b; [|repeat split].
  destruct (negb (truthy (PyStr q))); [repeat split|].
  unfold mbind, M_bind.
  destruct (query_index_returns index q s) as [response Hresp].
  pose proof (query_index_no_load index q s) as Hload.
  destruct (query_index_frame index q s) as (_ & _ & _ & _ & _ & Hcache).
  destruct (query_index index q s) as [r s2]. simpl in *. subst r.
  repeat split; assumption.
Qed.

Lemma main_keeps_cache (s : state) (h : handle) :
  resource_cache s = Some h ->
  resource_cache (snd (main s)) = Some h /\
  filter is_load_call (trace (snd (main s))) = filter is_load_call (trace s).
Proof.
  intros Hcached.
  destruct (before_submit_spec s)
    as (index & s1 & calls & els & Hbefore & Htrace & _ & _ & _ & _ & Hslot & Hhit).
  destruct (Hhit h Hcached) as [-> Hnoload].
  rewrite main_unfold, Hbefore. unfold mbind, M_bind.
  destruct (process_submit_frame h (text_area_value s) (button_clicked s) s1)
    as (Hret & Hcache2 & Hload2).
  destruct (process_submit h (text_area_value s) (button_clicked s) s1) as [r s2].
  simpl in *. subst r.
  destruct (render_about_spec s2) as (els' & -> & _). simpl.
  rewrite Hcache2, Hslot, Hload2, Htrace, filter_app, Hnoload, app_nil_r.
  split; reflexivity.
Qed.

Lemma credentials_frame (s : state) :
  resource_cache (snd (credentials s)) = resource_cache s /\
  trace (snd (credentials s)) = trace s.
Proof.
  destruct (credentials_spec s) as (_ & Hcache & Htrace & _).
  split; assumption.
Qed.

(** A run of the script that starts with a handle in the slot keeps it
    there and loads nothing. *)
Lemma script_keeps_cache (s : state) (h : handle) :
  resource_cache s = Some h ->
  resource_cache (snd (script s)) = Some h /\
  filter is_load_call (trace (snd (script s))) = filter is_load_call (trace s).
Proof.
  intros Hcached.
  unfold script, mbind, M_bind, st_static, render, environ_set. simpl.
  match goal with |- context [credentials ?st] =>
    destruct (credentials_frame st) as [Hcache Htrace];
    destruct (credentials st) as [[[]|e] s5]
  end; simpl in *.
  - rewrite <- Hcache in Hcached.
    destruct (main_keeps_cache s5 h Hcached) as [Hslot Hload].
    rewrite Hslot, Hload, Htrace. split; reflexivity.
  - rewrite Hcache, Htrace. split; [exact Hcached|reflexivity].
Qed.

Lemma after_first_invocation (s : state) (n : nat) :
  after_invocations (S n) s = after_invocations 1 s.
Proof.
  induction n as [|n IH]; [reflexivity|].
  change (after_invocations (S (S n)) s)
    with (snd (load_vector_index (after_invocations (S n) s))).
  rewrite IH.
  destruct (load_vector_index_returns s) as (h & _ & Hslot).
  change (after_invocations 1 s) with (snd (load_vector_index s)).
  rewrite (cache_hit _ h Hslot). reflexivity.
Qed.

Lemma first_invocation_trace (s : state) :
  exists calls : list call,
    trace (snd (load_vector_index s)) = trace s ++ calls /\
    length (filter is_exists_call calls) <= 1 /\
    length (filter is_construction_call calls) <= 1.
Proof.
  destruct (resource_cache s) as [h|] eqn:Hcache.
  - rewrite (cache_hit s h Hcache). exists []. rewrite app_nil_r. simpl. auto.
  - destruct (body_returns s) as [h Hbody].
    rewrite (cache_miss s h Hcache Hbody). simpl.
    destruct (body_trace s) as (calls & Htrace & Hex & Hcons & _).
    exists calls. split; [exact Htrace|]. split; [lia|exact Hcons].
Qed.

(** C5. The loader is memoized.  Every invocation returns; once one has
    returned [h], each later invocation (directly after, or from any later
    state whose slot still holds [h]) returns [h] and hands the state on as
    it found it, without executing the body; over any number of
    invocations in a row the directory is examined at most once and an
    index is built at most once; a dispatch in between does not empty the
    slot; and a whole run of the script that starts with [h] in the slot
    ends with [h] in the slot and makes no call that reads the directory
    or builds an index. *)
Theorem load_vector_index_memoized (s : state) :
  exists h,
    fst (load_vector_index s) = Returns h /\
    (forall s2, resource_cache s2 = Some h -> load_vector_index s2 = (Returns h, s2)) /\
    (forall n, load_vector_index (after_invocations (S n) s) =
               (Returns h, after_invocations 1 s)) /\
    (forall n,
        length (filter is_exists_call (trace (after_invocations n s)))
          <= length (filter is_exists_call (trace s)) + 1 /\
        length (filter is_construction_call (trace (after_invocations n s)))
          <= length (filter is_construction_call (trace s)) + 1) /\
    (forall index q s2,
        resource_cache (snd (query_index index q s2)) = resource_cache s2) /\
    (forall s2, resource_cache s2 = Some h ->
        resource_cache (snd (script s2)) = Some h /\
        filter is_load_call (trace (snd (script s2))) = filter is_load_call (trace s2)).
Proof.
  destruct (load_vector_index_returns s) as (h & Hret & Hslot).
  exists h. split; [exact Hret|]. split; [|split; [|split; [|split]]].
  - intros s2 Hcached. apply cache_hit. exact Hcached.
  - intros n. rewrite after_first_invocation.
    change (after_invocations 1 s) with (snd (load_vector_index s)).
    apply cache_hit. exact Hslot.
  - intros [|n].
    + simpl. lia.
    + rewrite after_first_invocation.
      change (after_invocations 1 s) with (snd (load_vector_index s)).
      destruct (first_invocation_trace s) as (calls & Htrace & Hex & Hcons).
      rewrite Htrace, !filter_app, !length_app. lia.
  - intros index q s2. apply (query_index_frame index q s2).
  - intros s2 Hcached. apply script_keeps_cache. exact Hcached.
Qed.

End Memoization.

(** * The statements at work on the stub library *)

Lemma query_index_extracts_text_witness :
  (let L := Stub.library (Stub.answering (PyStr "X")) in
   let s := Stub.start (Stub.answering (PyStr "X")) None Stub.with_key Stub.question true in
   fst (@query_index L (Some tt) Stub.question s) = Returns (PyStr "X")) /\
  (let L := Stub.library (Stub.plain "Churn and spectrum costs.") in
   let s := Stub.start (Stub.plain "Churn and spectrum costs.") None Stub.with_key Stub.question true in
   fst (@query_index L (Some tt) Stub.question s) = Returns (PyStr "Churn and spectrum costs.")).
Proof.
  split; intros L s.
  - destruct (@query_index_extracts_text L tt Stub.question s tt (world s)
                (ResponseObj (Some (PyStr "X")) "<Response>")
                (Stub.WorldState (Stub.documents (world s)) 1)
                eq_refl eq_refl) as (_ & _ & Htext).
    exact (Htext "X" eq_refl).
  - destruct (@query_index_extracts_text L tt Stub.question s tt (world s)
                (ResponseObj None "Churn and spectrum costs.")
                (Stub.WorldState (Stub.documents (world s)) 1)
                eq_refl eq_refl) as (_ & Hplain & _).
    exact (Hplain eq_refl).
Defined.

Lemma query_index_catches_exceptions_witness :
  let L := Stub.library (Stub.failing Stub.connection_error) in
  let s := Stub.start (Stub.failing Stub.connection_error) None Stub.with_key Stub.question true in
  fst (@query_index L (Some tt) Stub.question s) =
    Returns (PyStr "Error processing query: Connection error.").
Proof.
  intros L s.
  assert (Hraise :
    (exists w1, @as_query_engine L tt (world s) = (Raises Stub.connection_error, w1)) \/
    (exists qe w1 w2, @as_query_engine L tt (world s) = (Returns qe, w1) /\
                      @query L qe Stub.question w1 = (Raises Stub.connection_error, w2))).
  { right. exists tt, (world s), (Stub.WorldState (Stub.documents (world s)) 1).
    split; reflexivity. }
  exact (proj1 (@query_index_catches_exceptions L tt Stub.question s
                  Stub.connection_error Hraise)).
Defined.

Lemma query_index_returns_attribute_verbatim_witness :
  (let L := Stub.library (Stub.answering PyNone) in
   let s := Stub.start (Stub.answering PyNone) None Stub.with_key Stub.question true in
   fst (@query_index L (Some tt) Stub.question s) = Returns PyNone) /\
  (let L := Stub.library (Stub.answering (PyStr "")) in
   let s := Stub.start (Stub.answering (PyStr "")) None Stub.with_key Stub.question true in
   fst (@query_index L (Some tt) Stub.question s) = Returns (PyStr "")).
Proof.
  split; intros L s.
  - destruct (@query_index_returns_attribute_verbatim L tt Stub.question s tt (world s)
                (ResponseObj (Some PyNone) "<Response>")
                (Stub.WorldState (Stub.documents (world s)) 1)
                eq_refl eq_refl) as (_ & Hnone & _).
    exact (Hnone eq_refl).
  - destruct (@query_index_returns_attribute_verbatim L tt Stub.question s tt (world s)
                (ResponseObj (Some (PyStr "")) "<Response>")
                (Stub.WorldState (Stub.documents (world s)) 1)
                eq_refl eq_refl) as (_ & _ & Hempty).
    exact (Hempty eq_refl).
Defined.

Lemma query_index_leaves_handle_unchanged_witness :
  let L := Stub.library (Stub.answering (PyStr "X")) in
  let s := Stub.start (Stub.answering (PyStr "X")) None Stub.with_key Stub.question true in
  (forall ix w ix', Stub.contents (snd (@as_query_engine L ix w)) ix' = Stub.contents w ix') /\
  (forall qe q w ix', Stub.contents (snd (@query L qe q w)) ix' = Stub.contents w ix') /\
  Stub.documents (world (snd (@query_index L (Some tt) Stub.question s))) =
    Stub.documents (world s).
Proof.
  intros L s.
  assert (Hengine : forall ix w ix',
    Stub.contents (snd (@as_query_engine L ix w)) ix' = Stub.contents w ix')
    by (intros; reflexivity).
  assert (Hquery : forall qe q w ix',
    Stub.contents (snd (@query L qe q w)) ix' = Stub.contents w ix')
    by (intros; reflexivity).
  split; [exact Hengine|]. split; [exact Hquery|].
  destruct (@query_index_leaves_handle_unchanged L (list string) Stub.contents
              Hengine Hquery (Some tt) Stub.question s) as (_ & _ & Hcontents).
  exact (Hcontents tt).
Defined.

Lemma load_vector_index_failure_yields_no_handle_witness :
  (let L := Stub.library Stub.missing_dir in
   let s := Stub.start Stub.missing_dir None Stub.with_key "" false in
   @os_path_exists L index_dir (world s) = false /\
   fst (@load_vector_index_body L s) = Returns None) /\
  (let L := Stub.library (Stub.corrupt Stub.no_index_error) in
   let s := Stub.start (Stub.corrupt Stub.no_index_error) None Stub.with_key "" false in
   @raised_during_load L (world s) Stub.no_index_error /\
   fst (@load_vector_index_body L s) = Returns None) /\
  (let L := Stub.library (Stub.answering (PyStr "X")) in
   let s := Stub.start (Stub.answering (PyStr "X")) None Stub.with_key "" false in
   @loads_as L (world s) tt /\
   fst (@load_vector_index_body L s) = Returns (Some tt)).
Proof.
  split; [|split]; intros L s.
  - split; [reflexivity|].
    destruct (@load_vector_index_failure_yields_no_handle L s) as (Habsent & _).
    exact (proj1 (Habsent eq_refl)).
  - assert (Hraised : @raised_during_load L (world s) Stub.no_index_error).
    { split; [reflexivity|]. right. right.
      eexists _, (world s), tt, (world s), (world s).
      repeat split. }
    split; [exact Hraised|].
    destruct (@load_vector_index_failure_yields_no_handle L s) as (_ & Hexn & _).
    exact (proj1 (Hexn _ Hraised)).
  - assert (Hloads : @loads_as L (world s) tt).
    { split; [reflexivity|].
      eexists _, (world s), tt, (world s), (world s). repeat split. }
    split; [exact Hloads|].
    destruct (@load_vector_index_failure_yields_no_handle L s) as (_ & _ & _ & Hvalid & _).
    exact (Hvalid tt Hloads).
Defined.

Lemma load_vector_index_memoized_witness :
  let L := Stub.library (Stub.answering (PyStr "X")) in
  let s := Stub.start (Stub.answering (PyStr "X")) None Stub.with_key "" false in
  exists h,
    fst (@load_vector_index L s) = Returns h /\
    @load_vector_index L (after_invocations 1 s) = (Returns h, after_invocations 1 s) /\
    length (filter is_exists_call (trace (after_invocations 3 s))) <= 1.
Proof.
  intros L s.
  destruct (@load_vector_index_memoized L s) as (h & Hfirst & _ & Hlater & Hcount & _).
  exists h. split; [exact Hfirst|]. split; [exact (Hlater 0)|].
  exact (proj1 (Hcount 3)).
Defined.

Lemma credential_absence_blocks_without_crash_witness :
  let L := Stub.library (Stub.answering (PyStr "X")) in
  let s := Stub.start (Stub.answering (PyStr "X")) None ∅ Stub.question true in
  let inputs := [Interaction "" false; Interaction Stub.question true] in
  @credential_absent L s /\
  fst (@script L s) = Raises (Exn TypeError "str expected, not NoneType") /\
  length (fst (@session L inputs s)) = 2 /\
  Forall (fun p =>
            drawn p = [StStatic PageConfig; StStatic StyleSheet; StError msg_no_key] /\
            exception_box p = Some (Exn TypeError "str expected, not NoneType"))
         (fst (@session L inputs s)).
Proof.
  intros L s inputs.
  assert (Habsent : @credential_absent L s).
  { split; [left; reflexivity|reflexivity]. }
  split; [exact Habsent|].
  destruct (@credential_absence_blocks_without_crash L s inputs Habsent)
    as (Hraises & _ & _ & Hlength & Hpages & _).
  split; [exact Hraises|]. split; [exact Hlength|exact Hpages].
Defined.

Lemma main_rejects_empty_query_witness :
  let L := Stub.library (Stub.answering (PyStr "X")) in
  let s := Stub.start (Stub.answering (PyStr "X")) None Stub.with_key "" true in
  text_area_value s = "" /\ button_clicked s = true /\
  fst (@main L s) = Returns tt /\
  filter is_validation_error (ui (snd (@main L s))) = [StError "Please enter a query."] /\
  filter is_query_call (trace (snd (@main L s))) = [].
Proof.
  intros L s.
  split; [reflexivity|]. split; [reflexivity|].
  destruct (@main_rejects_empty_query L s eq_refl eq_refl)
    as (Hret & _ & Hval & _ & Hcalls & _).
  split; [exact Hret|]. split; [exact Hval|exact Hcalls].
Defined.

Lemma main_dispatches_whitespace_query_witness :
  let L := Stub.library (Stub.answering (PyStr "X")) in
  let s := Stub.start (Stub.answering (PyStr "X")) None Stub.with_key Stub.blank true in
  py_isspace (text_area_value s) = true /\ button_clicked s = true /\
  In (StWrite (PyStr "### Response")) (ui (snd (@main L s))) /\
  filter is_validation_error (ui (snd (@main L s))) = [].
Proof.
  intros L s.
  split; [reflexivity|]. split; [reflexivity|].
  destruct (@main_dispatches_whitespace_query L s eq_refl) as [_ Hblank].
  destruct (Hblank eq_refl)
    as (_ & index & s1 & response & s2 & _ & _ & _ & Hval & Hheading & _).
  split; [exact Hheading|exact Hval].
Defined.

(** * Further properties: the page as a whole *)

Section WholePage.
Context {L : Library}.

Ltac run_page :=
  unfold before_submit, render_header, render_about, process_submit,
    st_spinner, load_vector_index, cache_resource, load_vector_index_body,
    try_except, mbind, M_bind, extern, st_write, st_write_list, st_error,
    st_warning, st_static, st_text_area, st_button, render, mret, M_ret.

(** What [main] has drawn and kept when it comes to the submit action. *)
Lemma before_submit_page (s : state) :
  exists index s1 (calls : list call) (els : list element),
    before_submit s = (Returns (index, text_area_value s, button_clicked s), s1) /\
    trace s1 = trace s ++ calls /\ ui s1 = ui s ++ els /\
    environ s1 = environ s /\ resource_cache s1 = Some index /\
    In (StStatic MainHeader) els /\ In (StTextArea label_text_area) els /\
    In (StButton "Submit Query") els /\
    (In (StWarning msg_not_loaded) els <-> index = None) /\
    filter is_query_call calls = [] /\
    (forall h, resource_cache s = Some h ->
       index = h /\ filter is_load_call calls = [] /\ filter is_st_error els = [] /\
       world s1 = world_at_logo s).
Proof.
  run_page. unfold world_at_logo.
  destruct (st_image "logo.png" (world s)) as [[[]|e0] w0]; simpl;
  (destruct (resource_cache s) as [[ix|]|] eqn:Hcache; simpl;
   [ | | destruct (os_path_exists index_dir w0); simpl;
         [ destruct (os_listdir index_dir w0) as [[names|e1] w1]; simpl;
           [ destruct (StorageContext_from_defaults index_dir w1) as [[sc|e2] w2]; simpl;
             [ destruct (load_index_from_storage sc w2) as [[ix|e3] w3]; simpl | ]
           | ]
         | ] ]);
  do 4 eexists; (split; [reflexivity|]); simpl; rewrite <- ?app_assoc; simpl;
  rewrite ?Hcache;
  (split; [reflexivity|]); (split; [reflexivity|]); (split; [reflexivity|]);
  (split; [reflexivity|]);
  (split; [simpl; tauto|]); (split; [simpl; tauto|]); (split; [simpl; tauto|]);
  (split; [simpl; intuition (discriminate || congruence)|]);
  (split; [reflexivity|]);
  intros h [=]; subst; repeat split.
Qed.

Lemma process_submit_page (index : handle) (q : string) (b : bool) (s : state) :
  exists els : list element,
    fst (process_submit index q b s) = Returns tt /\
    ui (snd (process_submit index q b s)) = ui s ++ els /\
    environ (snd (process_submit index q b s)) = environ s /\
    resource_cache (snd (process_submit index q b s)) = resource_cache s.
Proof.
  unfold process_submit, st_spinner.
  destruct b; [|exists []; rewrite app_nil_r; repeat split].
  destruct (negb (truthy (PyStr q))); [eexists; repeat split|].
  unfold mbind, M_bind.
  destruct (query_index_returns index q s) as [response Hresp].
  destruct (query_index_frame index q s) as (_ & Henv & _ & _ & Hui & Hcache).
  destruct (query_index index q s) as [r s2]. simpl in *. subst r.
  eexists. split; [reflexivity|]. simpl. rewrite Hui, <- app_assoc.
  split; [reflexivity|]. split; assumption.
Qed.

Lemma render_about_page (s : state) :
  render_about s = (Returns tt, with_ui (ui s ++ about_blocks) s).
Proof.
  run_page. simpl. rewrite <- ?app_assoc. reflexivity.
Qed.

(** The shape of every run of [main]. *)
Lemma main_page (s : state) :
  fst (main s) = Returns tt /\
  (exists els : list element,
      ui (snd (main s)) = ui s ++ els ++ about_blocks /\
      In (StStatic MainHeader) els /\
      In (StTextArea label_text_area) els /\
      In (StButton "Submit Query") els) /\
  environ (snd (main s)) = environ s /\
  (exists h, resource_cache (snd (main s)) = Some h).
Proof.
  destruct (before_submit_page s)
    as (index & s1 & calls & els & Hbefore & _ & Hui & Henv & Hslot
        & Hheader & Harea & Hbutton & _).
  rewrite main_unfold, Hbefore. unfold mbind, M_bind.
  destruct (process_submit_page index (text_area_value s) (button_clicked s) s1)
    as (els2 & Hret & Hui2 & Henv2 & Hcache2).
  destruct (process_submit index (text_area_value s) (button_clicked s) s1) as [r s2].
  simpl in *. subst r. rewrite render_about_page. simpl.
  split; [reflexivity|]. split; [|split].
  - exists (els ++ els2). rewrite Hui2, Hui, <- !app_assoc.
    split; [reflexivity|].
    repeat split; apply in_or_app; left; assumption.
  - rewrite Henv2. exact Henv.
  - exists index. rewrite Hcache2. exact Hslot.
Qed.

(** X5. Whatever the collaborators do, [main] returns: no exception leaves
    it.  Every run draws the page header, the text area and the submit
    button, ends with the closing part of the page, leaves the
    environment alone and leaves a value in the slot of the cache. *)
Theorem main_always_draws_the_page (s : state) :
  fst (main s) = Returns tt /\
  (exists els : list element,
      ui (snd (main s)) = ui s ++ els ++ about_blocks /\
      In (StStatic MainHeader) els /\
      In (StTextArea label_text_area) els /\
      In (StButton "Submit Query") els) /\
  environ (snd (main s)) = environ s /\
  (exists h, resource_cache (snd (main s)) = Some h).
Proof.
  exact (main_page s).
Qed.

(** X7. A run in which the submit action has not fired asks nothing of a
    query interface and draws neither a response nor a validation
    message, whatever text stands in the text area. *)
Theorem main_without_submit (s : state) :
  button_clicked s = false ->
  filter is_query_call (trace (snd (main s))) = filter is_query_call (trace s) /\
  filter is_validation_error (ui (snd (main s))) = filter is_validation_error (ui s) /\
  filter is_response_heading (ui (snd (main s))) = filter is_response_heading (ui s).
Proof.
  intros Hidle.
  destruct (before_submit_spec s)
    as (index & s1 & calls & els & Hbefore & Htrace & Hnoquery & Hui & Hnoresp & Hnoval & _).
  rewrite main_unfold, Hbefore, Hidle.
  change ((process_submit index (text_area_value s) false;; render_about) s1)
    with (render_about s1).
  rewrite render_about_page.
  simpl. rewrite Htrace, Hui, <- !app_assoc, !filter_app.
  rewrite Hnoquery, Hnoresp, Hnoval. simpl. rewrite !app_nil_r.
  repeat split.
Qed.

Lemma before_submit_without_index (s : state) :
  load_fails s ->
  exists s1, before_submit s = (Returns (None, text_area_value s, button_clicked s), s1).
Proof.
  intros Hfail. run_page. unfold load_fails, world_at_logo in Hfail.
  destruct (st_image "logo.png" (world s)) as [[[]|e0] w0]; simpl in *;
    (destruct Hfail as [Hcache | [Hcache Hmissing]];
     rewrite Hcache; simpl; rewrite ?Hmissing; simpl; eexists; reflexivity).
Qed.

Lemma process_submit_without_index (q : string) (b : bool) (s : state) :
  exists els : list element,
    fst (process_submit None q b s) = Returns tt /\
    ui (snd (process_submit None q b s)) = ui s ++ els /\
    trace (snd (process_submit None q b s)) = trace s /\
    (b = true -> q <> "" ->
     In (StWrite (PyStr "### Response")) els /\
     In (StWrite (PyStr "Error: Index not loaded properly.")) els).
Proof.
  unfold process_submit, st_spinner, query_index, mbind, M_bind, mret, M_ret,
    st_error, st_write, render.
  destruct b; [destruct q as [|c rest]|]; simpl.
  - eexists. split; [reflexivity|]. split; [reflexivity|]. split; [reflexivity|].
    intros _ Hne. contradiction.
  - eexists. rewrite <- app_assoc. split; [reflexivity|].
    split; [reflexivity|]. split; [reflexivity|]. intros _ _. simpl. tauto.
  - exists []. rewrite app_nil_r. split; [reflexivity|].
    split; [reflexivity|]. split; [reflexivity|]. discriminate.
Qed.

(** X6. When no handle is to be had (an earlier load has failed and is
    remembered, or nothing is cached and the index directory is missing
    when this run looks for it), the page is served all the same: the
    warning about the index and the text area are drawn, no query
    interface is called, and a query submitted is answered under the
    response heading with the fixed text ["Error: Index not loaded
    properly."].  When the failed load is remembered in the cache, the run
    does not look at the index directory again. *)
Theorem main_serves_the_page_without_index (s : state) :
  load_fails s ->
  In (StWarning msg_not_loaded) (ui (snd (main s))) /\
  In (StTextArea label_text_area) (ui (snd (main s))) /\
  filter is_query_call (trace (snd (main s))) = filter is_query_call (trace s) /\
  (button_clicked s = true -> text_area_value s <> "" ->
   In (StWrite (PyStr "### Response")) (ui (snd (main s))) /\
   In (StWrite (PyStr "Error: Index not loaded properly.")) (ui (snd (main s)))) /\
  (resource_cache s = Some None ->
   filter is_load_call (trace (snd (main s))) = filter is_load_call (trace s)).
Proof.
  intros Hfail.
  destruct (before_submit_without_index s Hfail) as [s1' Hnone].
  destruct (before_submit_page s)
    as (index & s1 & calls & els & Hbefore & Htrace & Hui & _ & _
        & _ & Harea & _ & Hwarning & Hnoquery & Hhit).
  rewrite Hbefore in Hnone. injection Hnone as -> _.
  assert (Hwarn : In (StWarning msg_not_loaded) els) by (apply Hwarning; reflexivity).
  rewrite main_unfold, Hbefore. unfold mbind, M_bind.
  destruct (process_submit_without_index (text_area_value s) (button_clicked s) s1)
    as (els2 & Hret & Hui2 & Htrace2 & Hanswer).
  destruct (process_submit None (text_area_value s) (button_clicked s) s1) as [r s2].
  simpl in *. subst r. rewrite render_about_page. simpl.
  rewrite Htrace2, Htrace, Hui2, Hui, filter_app, Hnoquery, app_nil_r, !in_app_iff.
  split; [tauto|]. split; [tauto|]. split; [reflexivity|]. split.
  - intros Hclicked Hne. destruct (Hanswer Hclicked Hne). tauto.
  - intros Hcached. destruct (Hhit None Hcached) as (_ & Hnoload & _).
    rewrite filter_app, Hnoload, app_nil_r. reflexivity.
Qed.

Lemma query_index_fails (ix : Index) (q : string) (e : exn) (s : state) :
  dispatch_fails ix q e (world s) ->
  exists s2,
    query_index (Some ix) q s =
      (Returns (PyStr ("Error processing query: " +:+ exn_str e)), s2) /\
    ui s2 = ui s.
Proof.
  intros Hfails.
  destruct Hfails as [[w1 Hengine] | (qe & w1 & w2 & Hengine & Hquery)].
  - rewrite (query_index_engine_raises ix q s e w1 Hengine).
    eexists. split; reflexivity.
  - rewrite (query_index_query_raises ix q s qe w1 e w2 Hengine Hquery).
    eexists. split; reflexivity.
Qed.

Lemma process_submit_failure (ix : Index) (q : string) (e : exn) (s : state) :
  q <> "" -> dispatch_fails ix q e (world s) ->
  exists s2,
    process_submit (Some ix) q true s = (Returns tt, s2) /\
    ui s2 = ui s ++ [StWrite (PyStr "### Response");
                     StWrite (PyStr ("Error processing query: " +:+ exn_str e))].
Proof.
  intros Hne Hfails.
  unfold process_submit, st_spinner, mbind, M_bind.
  rewrite (truthy_nonempty _ Hne). cbn [negb].
  destruct (query_index_fails ix q e s Hfails) as (s2 & -> & Hui2).
  unfold st_write, render. simpl.
  eexists. split; [reflexivity|]. simpl. rewrite Hui2, <- app_assoc. reflexivity.
Qed.

(** X8. A query that fails is drawn like an answer.  With a handle in the
    cache, a query typed and the submit action fired, when delegating
    raises [e] in this run (from the world the run has reached once the
    logo is read) the page shows ["Error processing query: "] with the
    message of [e] by [st.write], and the run adds no [st.error] element
    and returns. *)
Theorem main_draws_query_failure_as_response (s : state) (ix : Index) (e : exn) :
  resource_cache s = Some (Some ix) ->
  button_clicked s = true ->
  text_area_value s <> "" ->
  dispatch_fails ix (text_area_value s) e (world_at_logo s) ->
  fst (main s) = Returns tt /\
  In (StWrite (PyStr ("Error processing query: " +:+ exn_str e))) (ui (snd (main s))) /\
  filter is_st_error (ui (snd (main s))) = filter is_st_error (ui s).
Proof.
  intros Hcached Hclicked Hne Hfails.
  destruct (before_submit_page s)
    as (index & s1 & calls & els & Hbefore & _ & Hui & _ & _
        & _ & _ & _ & _ & _ & Hhit).
  destruct (Hhit _ Hcached) as (-> & _ & Hnoerr & Hworld).
  rewrite <- Hworld in Hfails.
  rewrite main_unfold, Hbefore, Hclicked. unfold mbind, M_bind.
  destruct (process_submit_failure ix (text_area_value s) e s1 Hne Hfails)
    as (s2 & -> & Hui2).
  rewrite render_about_page. simpl.
  rewrite Hui2, Hui, !in_app_iff, <- !app_assoc, !filter_app, Hnoerr.
  split; [reflexivity|]. split; [simpl; tauto|].
  simpl. rewrite app_nil_r. reflexivity.
Qed.

End WholePage.

(** * Further properties: the credential and the start of the script *)

Section Credential.
Context {L : Library}.

Lemma with_environ_same (s : state) (k v : string) :
  environ s !! k = Some v -> with_environ (<[k := v]> (environ s)) s = s.
Proof.
  intros Hlookup. rewrite insert_id by exact Hlookup. destruct s. reflexivity.
Qed.

Lemma environ_set_copyable (k x : string) (v : pyval) (s : state) :
  copyable (k, v) = true ->
  (v = PyStr x \/ exists n, v = PyInt n /\ x = str_of_int n) ->
  environ_set k (PyStr x) s = (Returns tt, with_environ (<[k := x]> (environ s)) s).
Proof.
  intros Hcopy Hvalue. unfold environ_set.
  assert (Hlegal : negb (has_nul k || has_nul x)
                   && negb (String.eqb k "" || has_char "=" k) = true).
  { destruct Hvalue as [-> | (n & -> & ->)]; exact Hcopy. }
  apply andb_prop in Hlegal as [Hnul Hname].
  apply negb_true_iff in Hnul, Hname. rewrite Hnul, Hname. reflexivity.
Qed.

Lemma copy_secrets_returns (entries : list (string * pyval)) (s : state) :
  forallb copyable entries = true -> fst (copy_secrets entries s) = Returns tt.
Proof.
  revert s. induction entries as [|[k v] rest IH]; intros s Hall; [reflexivity|].
  simpl in Hall. apply andb_prop in Hall as [Hentry Hrest].
  change (copy_secrets ((k, v) :: rest) s)
    with ((maybe_set_environment_variable k v;; copy_secrets rest) s).
  unfold mbind, M_bind, maybe_set_environment_variable.
  destruct v as [|bit|n|x].
  - apply IH. exact Hrest.
  - apply IH. exact Hrest.
  - rewrite (environ_set_copyable k (str_of_int n) (PyInt n) s Hentry) by eauto.
    apply IH. exact Hrest.
  - rewrite (environ_set_copyable k x (PyStr x) s Hentry) by eauto.
    apply IH. exact Hrest.
Qed.

(** With the key in a secrets file that can be read, the variable of the
    script is bound to the entry of the file, and nothing is drawn. *)
Lemma key_found_secret (s : state) (entries : list (string * pyval)) (v : pyval) :
  secrets s = Some entries ->
  lookup_secret "OPENAI_API_KEY" entries = Some v ->
  secrets_readable s ->
  exists s1,
    key_found s = (Returns v, s1) /\ ui s1 = ui s /\
    (forall k, not_copied k s -> environ s1 !! k = environ s !! k).
Proof.
  intros Hstore Hlookup Hreadable.
  destruct (secrets_getitem_spec "OPENAI_API_KEY" s)
    as ((_ & _ & _ & Hui & _) & Hothers & _).
  assert (Hget : fst (secrets_getitem "OPENAI_API_KEY" s) = Returns v).
  { unfold secrets_getitem, parse_secrets, mbind, M_bind, mret, M_ret.
    unfold secrets_readable in Hreadable. rewrite Hstore in Hreadable |- *.
    destruct (secrets_parsed s).
    - rewrite Hlookup. reflexivity.
    - destruct Hreadable as [Habs | Hall]; [discriminate|].
      pose proof (copy_secrets_returns entries s Hall) as Hcopy.
      destruct (copy_secrets entries s) as [r s1]. simpl in Hcopy. subst r.
      rewrite Hlookup. reflexivity. }
  unfold key_found, try_except.
  destruct (secrets_getitem "OPENAI_API_KEY" s) as [r s1]. simpl in *. subst r.
  exists s1. repeat split; assumption.
Qed.

(** X1. The secrets file comes first.  When it can be read and holds a
    string under the key, that string is what ends up in [os.environ],
    whatever the environment held before (the variable is not read);
    nothing is drawn, not even when the string is empty, since the check
    for an empty key is made on the fallback only; and a variable that the
    run does not copy from the file is as before. *)
Theorem credentials_secret_takes_precedence
    (s : state) (entries : list (string * pyval)) (key : string) :
  secrets s = Some entries ->
  lookup_secret "OPENAI_API_KEY" entries = Some (PyStr key) ->
  secrets_readable s ->
  has_nul key = false ->
  fst (credentials s) = Returns tt /\
  environ (snd (credentials s)) !! "OPENAI_API_KEY" = Some key /\
  (forall k, k <> "OPENAI_API_KEY" -> not_copied k s ->
             environ (snd (credentials s)) !! k = environ s !! k) /\
  ui (snd (credentials s)) = ui s.
Proof.
  intros Hstore Hlookup Hreadable Hnul.
  destruct (key_found_secret s entries _ Hstore Hlookup Hreadable)
    as (s1 & Hfound & Hui & Hothers).
  rewrite credentials_key_found, Hfound.
  unfold environ_set. rewrite Hnul. simpl.
  split; [reflexivity|]. split; [apply lookup_insert_eq|].
  split; [|exact Hui].
  intros k Hk Hnot. rewrite lookup_insert_ne by congruence. apply Hothers. exact Hnot.
Qed.

(** X2. Without the key in the secrets file, a variable of the environment
    that is set and not empty is accepted as it is: the step returns,
    draws nothing and leaves the variable as it was, and so every variable
    that the run does not copy from the file.  With no secrets file, or
    with the file read before, the step changes nothing at all. *)
Theorem credentials_falls_back_to_environment (s : state) (key : string) :
  no_secret s ->
  environ s !! "OPENAI_API_KEY" = Some key ->
  key <> "" ->
  has_nul key = false ->
  fst (credentials s) = Returns tt /\
  ui (snd (credentials s)) = ui s /\
  environ (snd (credentials s)) !! "OPENAI_API_KEY" = Some key /\
  (forall k, not_copied k s -> environ (snd (credentials s)) !! k = environ s !! k) /\
  (secrets s = None \/ secrets_parsed s = true -> credentials s = (Returns tt, s)).
Proof.
  intros Hnosecret Henv Hne Hnul.
  assert (Htruthy : negb (String.eqb key "") = true).
  { destruct (String.eqb_spec key ""); [contradiction|reflexivity]. }
  destruct (key_found_fallback s Hnosecret)
    as (s1 & Hfound & _ & _ & _ & _ & Hkey & Hothers & Hui & _).
  rewrite Henv in Hfound, Hkey, Hui. simpl in Hfound, Hui.
  rewrite Htruthy in Hui. simpl in Hui. rewrite app_nil_r in Hui.
  split; [|split; [|split; [|split]]].
  - rewrite credentials_key_found, Hfound. unfold environ_set. rewrite Hnul. reflexivity.
  - rewrite credentials_key_found, Hfound. unfold environ_set. rewrite Hnul. exact Hui.
  - rewrite credentials_key_found, Hfound. unfold environ_set. rewrite Hnul.
    apply lookup_insert_eq.
  - intros k Hnot. rewrite credentials_key_found, Hfound.
    unfold environ_set. rewrite Hnul. simpl.
    destruct (String.eqb_spec k "OPENAI_API_KEY") as [-> | Hk].
    + rewrite lookup_insert_eq. symmetry. exact Henv.
    + rewrite lookup_insert_ne by congruence. apply Hothers. exact Hnot.
  - intros Heasy.
    assert (Hget : exists e, secrets_getitem "OPENAI_API_KEY" s = (Raises e, s)).
    { unfold secrets_getitem, parse_secrets, mbind, M_bind, raise, mret, M_ret.
      destruct Hnosecret as [Hnone | (m & Hsome & Hlookup)].
      - rewrite Hnone. eauto.
      - rewrite Hsome. destruct Heasy as [Hnone | Hparsed]; [congruence|].
        rewrite Hparsed, Hlookup. eauto. }
    destruct Hget as [e Hget].
    unfold credentials, try_except, mbind, M_bind. rewrite Hget.
    unfold environ_get, environ_set, mret, M_ret. rewrite Henv. simpl.
    rewrite Htruthy. simpl. rewrite Hnul. simpl.
    rewrite (with_environ_same s _ _ Henv). reflexivity.
Qed.

(** X4. A run of the script can stop at line 67 only, and [main] starts
    only with the key set in [os.environ].  Either the run returns, and
    then [os.environ] holds a string under [OPENAI_API_KEY]; or it ends in
    the [TypeError] or [ValueError] that [os.environ] raises at line 67,
    and then nothing of [main] has been drawn. *)
Theorem script_stops_at_line_67_only (s : state) :
  (fst (script s) = Returns tt /\
   exists key, environ (snd (script s)) !! "OPENAI_API_KEY" = Some key) \/
  (exists e, fst (script s) = Raises e /\
             (exn_type e = TypeError \/ exn_type e = ValueError) /\
             filter is_main_element (ui (snd (script s))) =
               filter is_main_element (ui s)).
Proof.
  rewrite script_unfold.
  destruct (credentials_spec (after_preamble s))
    as (_ & _ & _ & _ & _ & _ & Hui & _ & Hret & Hraise).
  destruct (credentials (after_preamble s)) as [[[]|e] s5]; simpl in *.
  - left. destruct (main_page s5) as (Hmain & _ & Henv & _).
    split; [exact Hmain|]. rewrite Henv. apply Hret. reflexivity.
  - right. exists e. split; [reflexivity|]. split; [apply Hraise; reflexivity|].
    destruct Hui as [-> | ->]; rewrite <- ?app_assoc, !filter_app; simpl;
      rewrite ?app_nil_r; reflexivity.
Qed.

(** X3. A variable that is set but empty does not stop the script: the
    error about the missing key is drawn, and the run goes on through
    [main] and returns, with the header, the text area and the closing
    part of the page drawn after the error. *)
Theorem script_goes_on_with_empty_key (s : state) :
  no_secret s ->
  environ s !! "OPENAI_API_KEY" = Some "" ->
  fst (script s) = Returns tt /\
  exists els : list element,
    ui (snd (script s)) =
      ui s ++ [StStatic PageConfig; StStatic StyleSheet; StError msg_no_key]
           ++ els ++ about_blocks /\
    In (StStatic MainHeader) els /\
    In (StTextArea label_text_area) els.
Proof.
  intros Hnosecret Henv.
  assert (Hnosecret' : no_secret (after_preamble s)) by exact Hnosecret.
  assert (Henv' : environ (after_preamble s) !! "OPENAI_API_KEY" = Some "").
  { rewrite preamble_key. exact Henv. }
  destruct (key_found_fallback _ Hnosecret')
    as (s1 & Hfound & _ & _ & _ & _ & _ & _ & Hui1 & _).
  rewrite Henv' in Hfound, Hui1. simpl in Hfound, Hui1.
  rewrite script_unfold, credentials_key_found, Hfound.
  unfold environ_set. simpl.
  destruct (main_page (with_environ (<["OPENAI_API_KEY" := ""]> (environ s1)) s1))
    as (Hmain & (els & Hui & Hheader & Harea & _) & _).
  split; [exact Hmain|].
  exists els. rewrite Hui. simpl. rewrite Hui1. unfold after_preamble. simpl.
  rewrite <- !app_assoc. simpl. repeat split; assumption.
Qed.

(** X9. A run of the script, whether it ends in [main] or at line 67,
    leaves each of the four cache directories set in [os.environ], over
    whatever value the variable had, unless the run copies an entry of
    that name from the secrets file: the file is read at line 60, after
    the four variables are set. *)
Theorem script_sets_cache_directories (s : state) :
  (not_copied "TIKTOKEN_CACHE_DIR" s ->
   environ (snd (script s)) !! "TIKTOKEN_CACHE_DIR" = Some "/tmp/tiktoken_cache") /\
  (not_copied "TRANSFORMERS_CACHE" s ->
   environ (snd (script s)) !! "TRANSFORMERS_CACHE" = Some "/tmp/transformers_cache") /\
  (not_copied "HF_HOME" s ->
   environ (snd (script s)) !! "HF_HOME" = Some "/tmp/hf_home") /\
  (not_copied "XDG_CACHE_HOME" s ->
   environ (snd (script s)) !! "XDG_CACHE_HOME" = Some "/tmp/xdg_cache").
Proof.
  assert (Hafter : forall k, k <> "OPENAI_API_KEY" -> not_copied k s ->
            environ (snd (script s)) !! k = environ (after_preamble s) !! k).
  { intros k Hk Hnot. rewrite script_unfold.
    destruct (credentials_spec (after_preamble s))
      as (_ & _ & _ & _ & _ & _ & _ & Hothers & _).
    specialize (Hothers k Hk Hnot).
    destruct (credentials (after_preamble s)) as [[[]|e] s5]; simpl in *.
    - destruct (main_page s5) as (_ & _ & Henv & _). rewrite Henv. exact Hothers.
    - exact Hothers. }
  repeat split; intros Hnot; rewrite Hafter by (discriminate || exact Hnot);
    unfold after_preamble; simpl;
    rewrite ?lookup_insert_ne by discriminate; apply lookup_insert_eq.
Qed.

End Credential.

(** * Further properties: the calls of the dispatcher and of the loader *)

Section Calls.
Context {L : Library}.

(** X10. One dispatch is one round trip.  On a loaded handle
    [query_index] builds a query engine exactly once and puts at most one
    query to it, with the text of the query as it was given; when the
    engine cannot be built no query is put; nothing is tried a second
    time, and the index directory is not touched.  With no handle no call
    is made at all. *)
Theorem query_index_single_round_trip (index : handle) (q : string) (s : state) :
  exists calls : list call,
    trace (snd (query_index index q s)) = trace s ++ calls /\
    (index = None -> calls = []) /\
    (forall ix, index = Some ix ->
       filter is_engine_call calls = [Call_as_query_engine ix]) /\
    length (filter is_query_only_call calls) <= 1 /\
    (forall qe q', In (Call_query qe q') calls -> q' = q) /\
    (forall ix e w1, index = Some ix ->
       as_query_engine ix (world s) = (Raises e, w1) ->
       filter is_query_only_call calls = []) /\
    filter is_load_call calls = [].
Proof.
  destruct index as [ix|].
  2:{ exists []. simpl. rewrite app_nil_r.
      repeat split; try discriminate; try contradiction; auto. }
  destruct (as_query_engine ix (world s)) as [[qe|e] w1] eqn:Hengine.
  - destruct (query qe q w1) as [[obj|e] w2] eqn:Hquery.
    + rewrite (query_index_query_returns ix q s qe w1 obj w2 Hengine Hquery).
      exists [Call_as_query_engine ix; Call_query qe q]. simpl.
      rewrite <- app_assoc.
      split; [reflexivity|]. split; [discriminate|].
      split; [intros ix' [= <-]; reflexivity|]. split; [lia|].
      split; [intros qe' q' [Hin | [Hin | []]]; congruence|].
      split; [intros ix' e' w' [= <-] Hraise; congruence|reflexivity].
    + rewrite (query_index_query_raises ix q s qe w1 e w2 Hengine Hquery).
      exists [Call_as_query_engine ix; Call_query qe q]. simpl.
      rewrite <- app_assoc.
      split; [reflexivity|]. split; [discriminate|].
      split; [intros ix' [= <-]; reflexivity|]. split; [lia|].
      split; [intros qe' q' [Hin | [Hin | []]]; congruence|].
      split; [intros ix' e' w' [= <-] Hraise; congruence|reflexivity].
  - rewrite (query_index_engine_raises ix q s e w1 Hengine).
    exists [Call_as_query_engine ix]. simpl.
    split; [reflexivity|]. split; [discriminate|].
    split; [intros ix' [= <-]; reflexivity|]. split; [lia|].
    split; [intros qe' q' [Hin | []]; congruence|].
    split; [reflexivity|reflexivity].
Qed.

Ltac run_body :=
  unfold load_vector_index_body, try_except, mbind, M_bind, extern,
    st_write, st_write_list, st_error, render, mret, M_ret.

(** X11. The loader goes through its collaborators in one fixed order and
    stops at the first that fails.  A missing directory: the existence
    check is its only call.  A listing that raises: the check and the
    listing, and the world is left as the listing left it.  A storage
    context that cannot be opened: the check, the listing and the opening,
    and nothing after.  Otherwise the index is built, from the very
    storage context that was opened.  In no case is a query interface
    called. *)
Theorem load_vector_index_call_order (s : state) :
  let s' := snd (load_vector_index_body s) in
  (os_path_exists index_dir (world s) = false ->
   trace s' = trace s ++ [Call_exists index_dir] /\ world s' = world s) /\
  (os_path_exists index_dir (world s) = true ->
   forall e w1,
     os_listdir index_dir (world s) = (Raises e, w1) ->
     trace s' = trace s ++ [Call_exists index_dir; Call_listdir index_dir] /\
     world s' = w1) /\
  (os_path_exists index_dir (world s) = true ->
   forall names w1 e w2,
     os_listdir index_dir (world s) = (Returns names, w1) ->
     StorageContext_from_defaults index_dir w1 = (Raises e, w2) ->
     trace s' = trace s ++ [Call_exists index_dir; Call_listdir index_dir;
                            Call_from_defaults index_dir] /\
     world s' = w2) /\
  (os_path_exists index_dir (world s) = true ->
   forall names w1 sc w2,
     os_listdir index_dir (world s) = (Returns names, w1) ->
     StorageContext_from_defaults index_dir w1 = (Returns sc, w2) ->
     trace s' = trace s ++ [Call_exists index_dir; Call_listdir index_dir;
                            Call_from_defaults index_dir;
                            Call_load_index_from_storage sc] /\
     world s' = snd (load_index_from_storage sc w2)) /\
  filter is_query_call (trace s') = filter is_query_call (trace s).
Proof.
  run_body.
  destruct (os_path_exists index_dir (world s)) eqn:Hpresent; simpl.
  2:{ split; [intros _; split; reflexivity|].
      do 3 (split; [discriminate|]).
      rewrite filter_app. simpl. rewrite app_nil_r. reflexivity. }
  split; [discriminate|].
  destruct (os_listdir index_dir (world s)) as [[names|e] w1] eqn:Hlist; simpl.
  2:{ split; [intros _ e' w1' [= <- <-]; rewrite <- !app_assoc; split; reflexivity|].
      split; [intros _ names' w1' e' w2' Habs; discriminate|].
      split; [intros _ names' w1' sc' w2' Habs; discriminate|].
      rewrite <- !app_assoc, filter_app. simpl. rewrite app_nil_r. reflexivity. }
  split; [intros _ e' w1' Habs; discriminate|].
  destruct (StorageContext_from_defaults index_dir w1) as [[sc|e] w2] eqn:Hctx; simpl.
  2:{ split; [intros _ names' w1' e' w2' [= <- <-] Hctx'; rewrite Hctx in Hctx';
              injection Hctx' as <- <-; rewrite <- !app_assoc; split; reflexivity|].
      split; [intros _ names' w1' sc' w2' [= <- <-] Hctx'; congruence|].
      rewrite <- !app_assoc, filter_app. simpl. rewrite app_nil_r. reflexivity. }
  split; [intros _ names' w1' e' w2' [= <- <-] Hctx'; congruence|].
  destruct (load_index_from_storage sc w2) as [[ix|e] w3] eqn:Hload; simpl.
  - split; [intros _ names' w1' sc' w2' [= <- <-] Hctx'; rewrite Hctx in Hctx';
            injection Hctx' as <- <-; rewrite Hload, <- !app_assoc; split; reflexivity|].
    rewrite <- !app_assoc, filter_app. simpl. rewrite app_nil_r. reflexivity.
  - split; [intros _ names' w1' sc' w2' [= <- <-] Hctx'; rewrite Hctx in Hctx';
            injection Hctx' as <- <-; rewrite Hload, <- !app_assoc; split; reflexivity|].
    rewrite <- !app_assoc, filter_app. simpl. rewrite app_nil_r. reflexivity.
Qed.

(** X12. The loader returns [None] exactly when it has drawn an error, and
    it draws at most one.  When it returns a handle, what it has drawn is
    the listing of the index directory under its caption, and no error. *)
Theorem load_vector_index_none_iff_error (s : state) :
  exists els : list element,
    ui (snd (load_vector_index_body s)) = ui s ++ els /\
    length (filter is_st_error els) <= 1 /\
    (fst (load_vector_index_body s) = Returns None <->
     filter is_st_error els <> []) /\
    (forall ix, fst (load_vector_index_body s) = Returns (Some ix) ->
       exists names w1,
         os_listdir index_dir (world s) = (Returns names, w1) /\
         els = [StWrite (PyStr "Index directory contents:"); StWriteList names]).
Proof.
  run_body.
  destruct (os_path_exists index_dir (world s)) eqn:Hpresent; simpl.
  2:{ eexists. split; [reflexivity|]. simpl. split; [lia|].
      split; [split; [discriminate|reflexivity]|discriminate]. }
  destruct (os_listdir index_dir (world s)) as [[names|e] w1] eqn:Hlist; simpl.
  2:{ eexists. rewrite <- !app_assoc. split; [reflexivity|]. simpl. split; [lia|].
      split; [split; [discriminate|reflexivity]|discriminate]. }
  destruct (StorageContext_from_defaults index_dir w1) as [[sc|e] w2] eqn:Hctx; simpl.
  2:{ eexists. rewrite <- !app_assoc. split; [reflexivity|]. simpl. split; [lia|].
      split; [split; [discriminate|reflexivity]|discriminate]. }
  destruct (load_index_from_storage sc w2) as [[ix|e] w3] eqn:Hload; simpl.
  - eexists. rewrite <- !app_assoc. split; [reflexivity|]. simpl. split; [lia|].
    split; [split; [discriminate|intros Hne; contradiction]|].
    intros ix' _. eauto.
  - eexists. rewrite <- !app_assoc. split; [reflexivity|]. simpl. split; [lia|].
    split; [split; [discriminate|reflexivity]|discriminate].
Qed.

End Calls.

(** * Further properties: a question and its answer *)

Section Answer.
Context {L : Library}.

Lemma process_submit_answer (ix : Index) (q : string) (obj : response_obj) (s : state) :
  q <> "" -> dispatch_answers ix q obj (world s) ->
  exists s2,
    process_submit (Some ix) q true s = (Returns tt, s2) /\
    ui s2 = ui s ++ [StWrite (PyStr "### Response"); StWrite (text_of obj)].
Proof.
  intros Hne Hanswers.
  unfold process_submit, st_spinner, mbind, M_bind.
  rewrite (truthy_nonempty _ Hne). cbn [negb].
  destruct Hanswers as (qe & w1 & w2 & Hengine & Hquery).
  rewrite (query_index_query_returns ix q s qe w1 obj w2 Hengine Hquery).
  unfold st_write, render. simpl.
  eexists. split; [reflexivity|]. simpl. rewrite <- app_assoc. reflexivity.
Qed.

(** X13. A question gets its answer.  With a handle in the cache, a query
    typed and the submit action fired, when the query interface answers
    with [obj] in this run (from the world the run has reached once the
    logo is read) the run returns, and what it draws ends with the response
    heading, the text taken from [obj] and the closing part of the page;
    before them it draws the text area and no error. *)
Theorem main_answers_the_query (s : state) (ix : Index) (obj : response_obj) :
  resource_cache s = Some (Some ix) ->
  button_clicked s = true ->
  text_area_value s <> "" ->
  dispatch_answers ix (text_area_value s) obj (world_at_logo s) ->
  fst (main s) = Returns tt /\
  exists els : list element,
    ui (snd (main s)) =
      ui s ++ els
           ++ [StWrite (PyStr "### Response"); StWrite (text_of obj)]
           ++ about_blocks /\
    filter is_st_error els = [] /\
    In (StTextArea label_text_area) els.
Proof.
  intros Hcached Hclicked Hne Hanswers.
  destruct (before_submit_page s)
    as (index & s1 & calls & els & Hbefore & _ & Hui & _ & _
        & _ & Harea & _ & _ & _ & Hhit).
  destruct (Hhit _ Hcached) as (-> & _ & Hnoerr & Hworld).
  rewrite <- Hworld in Hanswers.
  rewrite main_unfold, Hbefore, Hclicked. unfold mbind, M_bind.
  destruct (process_submit_answer ix (text_area_value s) obj s1 Hne Hanswers)
    as (s2 & -> & Hui2).
  rewrite render_about_page. simpl.
  split; [reflexivity|].
  exists els. rewrite Hui2, Hui, <- !app_assoc.
  split; [reflexivity|]. split; assumption.
Qed.

End Answer.

(** * The further statements at work on the stub library *)

Lemma credentials_secret_takes_precedence_witness :
  let c := Stub.answering (PyStr "X") in
  let s := Stub.start c Stub.two_secrets Stub.with_key "" false in
  environ s !! "OPENAI_API_KEY" = Some "sk-test" /\
  @secrets_readable (Stub.library c) s /\
  environ (snd (@credentials (Stub.library c) s)) !! "OPENAI_API_KEY" = Some "sk-secret".
Proof.
  intros c s. split; [reflexivity|].
  assert (Hreadable : @secrets_readable (Stub.library c) s) by (right; reflexivity).
  split; [exact Hreadable|].
  exact (proj1 (proj2 (@credentials_secret_takes_precedence (Stub.library c) s
                         [("OTHER", PyStr "1"); ("OPENAI_API_KEY", PyStr "sk-secret")]
                         "sk-secret" eq_refl eq_refl Hreadable eq_refl))).
Defined.

Lemma credentials_falls_back_to_environment_witness :
  let c := Stub.answering (PyStr "X") in
  let s := Stub.start c None Stub.with_key "" false in
  @no_secret (Stub.library c) s /\
  @credentials (Stub.library c) s = (Returns tt, s).
Proof.
  intros c s.
  assert (Hnosecret : @no_secret (Stub.library c) s) by (left; reflexivity).
  split; [exact Hnosecret|].
  assert (Hne : "sk-test" <> "") by discriminate.
  destruct (@credentials_falls_back_to_environment (Stub.library c) s "sk-test"
              Hnosecret eq_refl Hne eq_refl) as (_ & _ & _ & _ & Hsame).
  apply Hsame. left. reflexivity.
Defined.

Lemma script_goes_on_with_empty_key_witness :
  let c := Stub.answering (PyStr "X") in
  let s := Stub.start c None Stub.empty_key "" false in
  @no_secret (Stub.library c) s /\
  environ s !! "OPENAI_API_KEY" = Some "" /\
  fst (@script (Stub.library c) s) = Returns tt.
Proof.
  intros c s.
  assert (Hnosecret : @no_secret (Stub.library c) s) by (left; reflexivity).
  split; [exact Hnosecret|]. split; [reflexivity|].
  exact (proj1 (@script_goes_on_with_empty_key (Stub.library c) s Hnosecret eq_refl)).
Defined.

Lemma script_sets_cache_directories_witness :
  let c := Stub.answering (PyStr "X") in
  let s := Stub.start c Stub.two_secrets Stub.with_key "" false in
  @not_copied (Stub.library c) "HF_HOME" s /\
  environ (snd (@script (Stub.library c) s)) !! "HF_HOME" = Some "/tmp/hf_home".
Proof.
  intros c s.
  assert (Hnot : @not_copied (Stub.library c) "HF_HOME" s) by (right; reflexivity).
  split; [exact Hnot|].
  destruct (@script_sets_cache_directories (Stub.library c) s) as (_ & _ & Hhome & _).
  exact (Hhome Hnot).
Defined.

Lemma main_serves_the_page_without_index_witness :
  let c := Stub.missing_dir in
  let s := Stub.start c None Stub.with_key Stub.question true in
  @load_fails (Stub.library c) s /\
  In (StWarning msg_not_loaded) (ui (snd (@main (Stub.library c) s))) /\
  In (StWrite (PyStr "Error: Index not loaded properly."))
     (ui (snd (@main (Stub.library c) s))).
Proof.
  intros c s.
  assert (Hfail : @load_fails (Stub.library c) s).
  { right. split; reflexivity. }
  split; [exact Hfail|].
  destruct (@main_serves_the_page_without_index (Stub.library c) s Hfail)
    as (Hwarning & _ & _ & Hanswer & _).
  split; [exact Hwarning|].
  apply Hanswer; [reflexivity|discriminate].
Defined.

Lemma main_without_submit_witness :
  let c := Stub.answering (PyStr "X") in
  let s := Stub.start c None Stub.with_key Stub.question false in
  button_clicked s = false /\
  filter is_query_call (trace (snd (@main (Stub.library c) s))) = [].
Proof.
  intros c s. split; [reflexivity|].
  exact (proj1 (@main_without_submit (Stub.library c) s eq_refl)).
Defined.

Lemma main_draws_query_failure_as_response_witness :
  let c := Stub.no_engine Stub.connection_error in
  let s := Stub.start_cached c (Some tt) Stub.with_key Stub.question true in
  @dispatch_fails (Stub.library c) tt Stub.question Stub.connection_error
     (@world_at_logo (Stub.library c) s) /\
  In (StWrite (PyStr "Error processing query: Connection error."))
     (ui (snd (@main (Stub.library c) s))) /\
  filter is_st_error (ui (snd (@main (Stub.library c) s))) = [].
Proof.
  intros c s.
  assert (Hfails : @dispatch_fails (Stub.library c) tt Stub.question
                     Stub.connection_error (@world_at_logo (Stub.library c) s)).
  { left. exists (world s). reflexivity. }
  split; [exact Hfails|].
  assert (Hne : text_area_value s <> "") by discriminate.
  destruct (@main_draws_query_failure_as_response (Stub.library c) s tt
              Stub.connection_error eq_refl eq_refl Hne Hfails)
    as (_ & Hdrawn & Hnoerr).
  split; [exact Hdrawn|exact Hnoerr].
Defined.

Lemma query_index_single_round_trip_witness :
  let c := Stub.answering (PyStr "X") in
  let s := Stub.start c None Stub.with_key Stub.question true in
  exists calls : list (@call (Stub.library c)),
    trace (snd (@query_index (Stub.library c) (Some tt) Stub.question s)) = calls /\
    filter is_engine_call calls = [@Call_as_query_engine (Stub.library c) tt] /\
    length (filter is_query_only_call calls) <= 1.
Proof.
  intros c s.
  destruct (@query_index_single_round_trip (Stub.library c) (Some tt) Stub.question s)
    as (calls & Htrace & _ & Hengine & Hquery & _).
  exists calls. split; [exact Htrace|].
  split; [exact (Hengine tt eq_refl)|exact Hquery].
Defined.

Lemma load_vector_index_call_order_witness :
  let c := Stub.missing_dir in
  let s := Stub.start c None Stub.with_key "" false in
  @os_path_exists (Stub.library c) index_dir (world s) = false /\
  trace (snd (@load_vector_index_body (Stub.library c) s)) = [Call_exists index_dir].
Proof.
  intros c s. split; [reflexivity|].
  destruct (@load_vector_index_call_order (Stub.library c) s) as (Habsent & _).
  exact (proj1 (Habsent eq_refl)).
Defined.

Lemma load_vector_index_none_iff_error_witness :
  let c := Stub.corrupt Stub.no_index_error in
  let s := Stub.start c None Stub.with_key "" false in
  fst (@load_vector_index_body (Stub.library c) s) = Returns None /\
  exists els : list element,
    ui (snd (@load_vector_index_body (Stub.library c) s)) = els /\
    filter is_st_error els <> [].
Proof.
  intros c s. split; [reflexivity|].
  destruct (@load_vector_index_none_iff_error (Stub.library c) s)
    as (els & Hui & _ & Hiff & _).
  exists els. split; [exact Hui|].
  apply (proj1 Hiff). reflexivity.
Defined.

Lemma main_answers_the_query_witness :
  let c := Stub.answering (PyStr "X") in
  let s := Stub.start_cached c (Some tt) Stub.with_key Stub.question true in
  @dispatch_answers (Stub.library c) tt Stub.question
     (ResponseObj (Some (PyStr "X")) "<Response>")
     (@world_at_logo (Stub.library c) s) /\
  fst (@main (Stub.library c) s) = Returns tt /\
  exists els : list element,
    ui (snd (@main (Stub.library c) s)) =
      els ++ [StWrite (PyStr "### Response"); StWrite (PyStr "X")] ++ about_blocks.
Proof.
  intros c s.
  assert (Hanswers : @dispatch_answers (Stub.library c) tt Stub.question
                       (ResponseObj (Some (PyStr "X")) "<Response>")
                       (@world_at_logo (Stub.library c) s)).
  { exists tt, (world s), (Stub.WorldState (Stub.documents (world s)) 1).
    split; reflexivity. }
  split; [exact Hanswers|].
  assert (Hne : text_area_value s <> "") by discriminate.
  destruct (@main_answers_the_query (Stub.library c) s tt _ eq_refl eq_refl Hne Hanswers)
    as (Hret & els & Hui & _).
  split; [exact Hret|]. exists els. exact Hui.
Defined.
